(** * VisionaryAI consultation orchestrator

    A shallow embedding of the turn pipeline of the eyewear try-on
    application: the Gemini service module ([generateEyewearImage],
    [chatWithStylist], [detectIntent]) and the handlers of the [App]
    component ([handleSendMessage], [handleReferenceImageUpload], ...).

    Conventions of the embedding.
    - A JavaScript value of type [string | null | undefined] is an
      [option string]; [None] stands for both [null] and [undefined].
    - Text is a [string] whose characters are the code units U+0000..U+00FF.
    - React state is the record [App].  A handler reads the values captured
      by its closure ([snap]) and writes through the setters into the live
      state ([live]); functional updates ([setChatHistory (prev => ...)])
      act on the live value.
    - The remote model ([ai.models.generateContent]) and the clock
      ([Date.now]) are the environment [Env].  Every request handed to the
      remote model is recorded in the trace a handler returns.
    - One pipeline runs to completion before the next event is taken. *)

From Stdlib Require Import String Ascii List ZArith NArith Bool Lia.
Import ListNotations.
Open Scope string_scope.
Open Scope bool_scope.

(** ** JavaScript string primitives *)

Module JS.

(** Truthiness of a string: every string but the empty one. *)
Definition truthyStr (s : string) : bool := negb (s =? EmptyString).

(** Truthiness of a [string | null | undefined]. *)
Definition truthy (v : option string) : bool :=
  match v with
  | Some s => truthyStr s
  | None => false
  end.

(** [a || b] on [string | null | undefined]. *)
Definition orElse (a b : option string) : option string :=
  if truthy a then a else b.

(** [v ? f(v) : d]. *)
Definition whenTruthy {A : Type} (v : option string) (f : string -> A) (d : A) : A :=
  match v with
  | Some s => if truthyStr s then f s else d
  | None => d
  end.

(** [x || fallback] where the fallback is a string. *)
Definition orDefault (a : option string) (fallback : string) : string :=
  match a with
  | Some s => if truthyStr s then s else fallback
  | None => fallback
  end.

(** [s.includes(sub)]. *)
Fixpoint includes (s sub : string) : bool :=
  String.prefix sub s
  || match s with
     | EmptyString => false
     | String _ rest => includes rest sub
     end.

Definition inRange (lo hi n : N) : bool := (lo <=? n)%N && (n <=? hi)%N.

(** Lower-casing of one code unit of U+0000..U+00FF: the letters A-Z and
    the Latin-1 capitals U+00C0..U+00DE (U+00D7, the multiplication sign,
    excepted) move up by 32. *)
Definition lowerChar (c : ascii) : ascii :=
  let n := N_of_ascii c in
  if inRange 65 90 n || inRange 192 214 n || inRange 216 222 n
  then ascii_of_N (n + 32)
  else c.

(** [s.toLowerCase()]. *)
Fixpoint toLowerCase (s : string) : string :=
  match s with
  | EmptyString => EmptyString
  | String c rest => String (lowerChar c) (toLowerCase rest)
  end.

(** White space and line terminators of [String.prototype.trim] among
    U+0000..U+00FF: TAB, LF, VT, FF, CR, SPACE and NBSP. *)
Definition isWhiteSpace (c : ascii) : bool :=
  let n := N_of_ascii c in
  inRange 9 13 n || (n =? 32)%N || (n =? 160)%N.

Fixpoint trimStart (s : string) : string :=
  match s with
  | EmptyString => EmptyString
  | String c rest => if isWhiteSpace c then trimStart rest else s
  end.

Fixpoint trimEnd (s : string) : string :=
  match s with
  | EmptyString => EmptyString
  | String c rest =>
      let r := trimEnd rest in
      if isWhiteSpace c && (r =? EmptyString) then EmptyString else String c r
  end.

(** [s.trim()]. *)
Definition trim (s : string) : string := trimEnd (trimStart s).

(** [s.split(sep)] for a separator of one character: never empty. *)
Fixpoint split (sep : ascii) (s : string) : list string :=
  match s with
  | EmptyString => [EmptyString]
  | String c rest =>
      if Ascii.eqb c sep then EmptyString :: split sep rest
      else match split sep rest with
           | piece :: pieces => String c piece :: pieces
           | [] => [String c EmptyString]
           end
  end.

End JS.

Import JS.

(** ** The Gemini service module *)

(** The return type of [detectIntent]: ['EDIT_IMAGE' | 'CHAT'].  The
    specification calls the second route CONSULT. *)
Inductive Intent := EDIT_IMAGE | CHAT.

Definition visualKeywords : list string :=
  [ "change"; "make"; "add"; "remove"; "wear"; "try"; "color"; "style"; "shape";
    "rim"; "lens"; "thinner"; "thicker"; "bigger"; "smaller"; "metal"; "plastic";
    "gold"; "silver"; "black"; "blue"; "red"; "green"; "tortoise"; "transparent";
    "generate"; "create"; "visualize" ].

Definition detectIntent (message : string) : Intent :=
  let lowerMsg := toLowerCase message in
  if includes lowerMsg "buy" || includes lowerMsg "link"
     || includes lowerMsg "where" || includes lowerMsg "cost"
     || includes lowerMsg "price" || includes lowerMsg "brand"
     || includes lowerMsg "shop" || includes lowerMsg "find"
     || includes lowerMsg "similar"
  then CHAT
  else if existsb (fun k => includes lowerMsg k) visualKeywords
  then EDIT_IMAGE
  else CHAT.

(** A part of a request: [{ inlineData: { data, mimeType } }] or [{ text }].
    The payload of an inline part is whatever [cleanBase64] produced, which
    is [undefined] for a string without a comma. *)
Inductive Part :=
| InlinePart (data : option string) (mimeType : string)
| TextPart (text : string).

Definition fileToGenerativePart (base64Data : option string) (mimeType : string) : Part :=
  InlinePart base64Data mimeType.

Inductive Modality := IMAGE.
Inductive Tool := GoogleSearch.

Record GenerateContentConfig := {
  responseModalities : list Modality;
  tools : list Tool;
  systemInstruction : option string
}.

(** The argument of [ai.models.generateContent]. *)
Record GenerateContentRequest := {
  model : string;
  parts : list Part;
  config : GenerateContentConfig
}.

(** The fields of the response the service reads.  A part of a candidate
    may carry [inlineData]; a grounding chunk may carry a [web] source whose
    [uri] and [title] may each be missing. *)
Record Blob := { blobData : string; blobMimeType : string }.
Record ResponsePart := { inlineData : option Blob }.
Record WebSource := { webUri : option string; webTitle : option string }.
Record GroundingChunk := { web : option WebSource }.
Record Candidate := {
  contentParts : option (list ResponsePart);
  groundingChunks : option (list GroundingChunk)
}.
Record GenerateContentResponse := {
  candidates : option (list Candidate);
  responseText : option string
}.

(** A settled promise: fulfilled with a value or rejected with an error
    (the message of the [Error]). *)
Inductive Outcome (A : Type) :=
| Fulfilled (value : A)
| Rejected (message : string).
Arguments Fulfilled {A} value.
Arguments Rejected {A} message.

(** The environment of a turn: the remote model and the clock.  [now k] is
    the value of the [k]-th call of [Date.now()] in the turn. *)
Record Env := {
  generateContent : GenerateContentRequest -> Outcome GenerateContentResponse;
  now : nat -> Z
}.

Definition referencePrompt (prompt : string) : string :=
  "Using the first image as the base and the second image as a reference for the eyewear style, "
  ++ prompt
  ++ ". Ensure the glasses fit the face naturally with correct perspective, lighting, and shadows. High quality, photorealistic.".

Definition plainPrompt (prompt : string) : string :=
  "Edit the image to: " ++ prompt
  ++ ". Ensure photorealistic results, correct lighting, and natural fit on the face. High resolution.".

(** The request [generateEyewearImage] builds before it awaits the model. *)
Definition eyewearRequest (baseImageBase64 : option string) (prompt : string)
    (referenceImageBase64 : option string) : GenerateContentRequest :=
  let ps : list Part := [] in
  let ps := (ps ++ [fileToGenerativePart baseImageBase64 "image/jpeg"])%list in
  let ps :=
    if truthy referenceImageBase64
    then (ps ++ [fileToGenerativePart referenceImageBase64 "image/jpeg"])%list
    else ps in
  let finalPrompt :=
    if truthy referenceImageBase64 then referencePrompt prompt else plainPrompt prompt in
  let ps := (ps ++ [TextPart finalPrompt])%list in
  {| model := "gemini-2.5-flash-image";
     parts := ps;
     config := {| responseModalities := [IMAGE]; tools := []; systemInstruction := None |} |}.

(** [response.candidates?.[0]?.content?.parts?.[0]]. *)
Definition firstPart (response : GenerateContentResponse) : option ResponsePart :=
  match candidates response with
  | Some (candidate :: _) =>
      match contentParts candidate with
      | Some (part :: _) => Some part
      | _ => None
      end
  | _ => None
  end.

(** [generateEyewearImage]: the result of the promise and the requests sent.
    The [catch] logs and throws the error again. *)
Definition generateEyewearImage (env : Env) (baseImageBase64 : option string)
    (prompt : string) (referenceImageBase64 : option string)
    : Outcome string * list GenerateContentRequest :=
  let request := eyewearRequest baseImageBase64 prompt referenceImageBase64 in
  match generateContent env request with
  | Fulfilled response =>
      match firstPart response with
      | Some {| inlineData := Some blob |} => (Fulfilled (blobData blob), [request])
      | _ => (Rejected "No image generated from the model.", [request])
      end
  | Rejected message => (Rejected message, [request])
  end.

(** An entry of [groundingUrls]. *)
Record GroundingUrl := { title : string; uri : string }.

(** [ChatMessage] of [types.ts]. *)
Inductive MessageRole := USER | MODEL | SYSTEM.

Record ChatMessage := {
  role : MessageRole;
  text : string;
  timestamp : Z;
  isError : option bool;
  groundingUrls : option (list GroundingUrl)
}.

Definition lookCaption : string :=
  "This is the current image of the user wearing glasses. Focus on the glasses style, shape, color, and material.".

Definition stylistInstruction : string :=
  "You are an expert optical stylist and optometrist assistant. You help users find the perfect glasses. When asked to find similar products or shop, analyze the visual details of the eyewear in the image provided (frame shape, rim thickness, color, material) and use Google Search to find real, purchasable products that are very similar. Provide direct shopping links. Be concise, helpful, and fashion-forward.".

(** The request [chatWithStylist] builds before it awaits the model.  The
    parameter [history] is received and not read. *)
Definition stylistRequest (message : string) (currentImageBase64 : option string)
    (history : list ChatMessage) : GenerateContentRequest :=
  let ps : list Part := [] in
  let ps :=
    if truthy currentImageBase64
    then (ps ++ [fileToGenerativePart currentImageBase64 "image/jpeg"; TextPart lookCaption])%list
    else ps in
  let ps := (ps ++ [TextPart message])%list in
  {| model := "gemini-3-pro-preview";
     parts := ps;
     config := {| responseModalities := [];
                  tools := [GoogleSearch];
                  systemInstruction := Some stylistInstruction |} |}.

(** [chunk.web?.uri && chunk.web?.title]. *)
Definition hasUriAndTitle (chunk : GroundingChunk) : bool :=
  match web chunk with
  | Some source => truthy (webUri source) && truthy (webTitle source)
  | None => false
  end.

Definition toGroundingUrl (chunk : GroundingChunk) : GroundingUrl :=
  match web chunk with
  | Some {| webUri := Some u; webTitle := Some t |} => {| title := t; uri := u |}
  | _ => {| title := EmptyString; uri := EmptyString |}
  end.

(** [response.candidates?.[0]?.groundingMetadata?.groundingChunks || []]. *)
Definition groundingChunksOf (response : GenerateContentResponse) : list GroundingChunk :=
  match candidates response with
  | Some (candidate :: _) =>
      match groundingChunks candidate with
      | Some chunks => chunks
      | None => []
      end
  | _ => []
  end.

Record StylistReply := { replyText : string; replyUrls : list GroundingUrl }.

(** [chatWithStylist]: the result of the promise and the requests sent. *)
Definition chatWithStylist (env : Env) (message : string)
    (currentImageBase64 : option string) (history : list ChatMessage)
    : Outcome StylistReply * list GenerateContentRequest :=
  let request := stylistRequest message currentImageBase64 history in
  match generateContent env request with
  | Fulfilled response =>
      let text := orDefault (responseText response) "I couldn't generate a text response." in
      let urls := map toGroundingUrl (filter hasUriAndTitle (groundingChunksOf response)) in
      (Fulfilled {| replyText := text; replyUrls := urls |}, [request])
  | Rejected message => (Rejected message, [request])
  end.

(** ** The [App] component *)

Record GenerationState := { isGenerating : bool; progress : string }.

Record StylistOption := {
  id : string;
  label : string;
  prompt : string;
  icon : string
}.

(** The state variables of [App]: the three images (data URLs), the
    transcript, the input box and the progress indicator. *)
Record App := {
  userImage : option string;
  generatedImage : option string;
  referenceImage : option string;
  chatHistory : list ChatMessage;
  inputMessage : string;
  generationState : GenerationState
}.

Definition setUserImage (v : option string) (st : App) : App :=
  {| userImage := v;
     generatedImage := generatedImage st;
     referenceImage := referenceImage st;
     chatHistory := chatHistory st;
     inputMessage := inputMessage st;
     generationState := generationState st |}.

Definition setGeneratedImage (v : option string) (st : App) : App :=
  {| userImage := userImage st;
     generatedImage := v;
     referenceImage := referenceImage st;
     chatHistory := chatHistory st;
     inputMessage := inputMessage st;
     generationState := generationState st |}.

Definition setReferenceImage (v : option string) (st : App) : App :=
  {| userImage := userImage st;
     generatedImage := generatedImage st;
     referenceImage := v;
     chatHistory := chatHistory st;
     inputMessage := inputMessage st;
     generationState := generationState st |}.

(** [setChatHistory] with an updater function of the previous value. *)
Definition setChatHistory (f : list ChatMessage -> list ChatMessage) (st : App) : App :=
  {| userImage := userImage st;
     generatedImage := generatedImage st;
     referenceImage := referenceImage st;
     chatHistory := f (chatHistory st);
     inputMessage := inputMessage st;
     generationState := generationState st |}.

Definition setInputMessage (v : string) (st : App) : App :=
  {| userImage := userImage st;
     generatedImage := generatedImage st;
     referenceImage := referenceImage st;
     chatHistory := chatHistory st;
     inputMessage := v;
     generationState := generationState st |}.

Definition setGenerationState (v : GenerationState) (st : App) : App :=
  {| userImage := userImage st;
     generatedImage := generatedImage st;
     referenceImage := referenceImage st;
     chatHistory := chatHistory st;
     inputMessage := inputMessage st;
     generationState := v |}.

(** The state of the first render. *)
Definition initialApp : App :=
  {| userImage := None;
     generatedImage := None;
     referenceImage := None;
     chatHistory := [];
     inputMessage := EmptyString;
     generationState := {| isGenerating := false; progress := EmptyString |} |}.

(** A message without the optional fields. *)
Definition chatMessage (r : MessageRole) (t : string) (time : Z) : ChatMessage :=
  {| role := r; text := t; timestamp := time; isError := None; groundingUrls := None |}.

Definition greeting : string :=
  "Great! I've got your photo. Choose a style below, upload a reference image of glasses you like, or just tell me what to try on!".

Definition handleUserImageUpload (env : Env) (live : App) (base64 : string) : App :=
  let live := setUserImage (Some base64) live in
  let live := setGeneratedImage None live in
  setChatHistory (fun _ => [chatMessage MODEL greeting (now env 0)]) live.

(** [dataUrl.split(',')[1]]: the second piece, [undefined] without a comma. *)
Definition cleanBase64 (dataUrl : string) : option string :=
  nth_error (split "," dataUrl) 1.

(** [overrideRefImage || referenceImage]. *)
Definition currentRefImageOf (snap : App) (overrideRefImage : option string) : option string :=
  orElse overrideRefImage (referenceImage snap).

(** [currentRefImage ? 'EDIT_IMAGE' : classify(text)]; the handler takes
    [detectIntent] as [classify]. *)
Definition intentFor (classify : string -> Intent) (currentRefImage : option string)
    (text : string) : Intent :=
  if truthy currentRefImage then EDIT_IMAGE else classify text.

Definition referenceAck : string :=
  "I've placed the glasses from your reference image onto your face. How do they fit?".

Definition editAck : string :=
  "Here is the updated look based on your request. Use the slider to compare!".

(** The body of the [try] block of [handleSendMessage], entered with a
    truthy [userImage]: the settled result, the live state when it settles
    and the requests sent. *)
Definition sendMessageTry (env : Env) (snap live : App) (userImage : string)
    (text : string) (overrideRefImage : option string)
    : Outcome unit * App * list GenerateContentRequest :=
  let currentRefImage := currentRefImageOf snap overrideRefImage in
  let intent := intentFor detectIntent currentRefImage text in
  match intent with
  | EDIT_IMAGE =>
      let live := setGenerationState
        {| isGenerating := true;
           progress := "Generating your new look... (using Gemini 2.5 Flash Image)" |} live in
      let rawUserImage := cleanBase64 userImage in
      let rawRefImage := whenTruthy currentRefImage cleanBase64 None in
      match generateEyewearImage env rawUserImage text rawRefImage with
      | (Fulfilled newImageBase64, sent) =>
          let fullNewImage := "data:image/jpeg;base64," ++ newImageBase64 in
          let live := setGeneratedImage (Some fullNewImage) live in
          let live := setChatHistory (fun prev =>
            (prev ++ [chatMessage MODEL
                        (if truthy currentRefImage then referenceAck else editAck)
                        (now env 1)])%list) live in
          (Fulfilled tt, live, sent)
      | (Rejected error, sent) => (Rejected error, live, sent)
      end
  | CHAT =>
      let live := setGenerationState
        {| isGenerating := true;
           progress := "Consulting the optical expert... (using Gemini 3 Pro)" |} live in
      let currentContextImage :=
        whenTruthy (generatedImage snap) cleanBase64 (cleanBase64 userImage) in
      match chatWithStylist env text currentContextImage (chatHistory snap) with
      | (Fulfilled response, sent) =>
          let live := setChatHistory (fun prev =>
            (prev ++ [{| role := MODEL;
                         text := replyText response;
                         timestamp := now env 1;
                         isError := None;
                         groundingUrls := Some (replyUrls response) |}])%list) live in
          (Fulfilled tt, live, sent)
      | (Rejected error, sent) => (Rejected error, live, sent)
      end
  end.

Definition uploadFirst : string := "Please upload a photo of yourself first!".

Definition genericError : string := "Sorry, something went wrong. Please try again.".

Definition errorMessage (time : Z) : ChatMessage :=
  {| role := MODEL; text := genericError; timestamp := time;
     isError := Some true; groundingUrls := None |}.

(** The guard that opens [handleSendMessage]:
    [!text.trim() && !overrideRefImage]. *)
Definition isEmptySubmission (text : string) (overrideRefImage : option string) : bool :=
  negb (truthyStr (trim text)) && negb (truthy overrideRefImage).

(** [handleSendMessage (text, overrideRefImage)], run to completion: the
    live state it leaves and the requests it sent to the remote model. *)
Definition handleSendMessage (env : Env) (snap live : App) (text : string)
    (overrideRefImage : option string) : App * list GenerateContentRequest :=
  if isEmptySubmission text overrideRefImage then (live, [])
  else
    let userMsg := chatMessage USER text (now env 0) in
    let live := setChatHistory (fun prev => (prev ++ [userMsg])%list) live in
    let live := setInputMessage EmptyString live in
    whenTruthy (userImage snap)
      (fun userImage =>
         let live := setGenerationState
           {| isGenerating := true; progress := "Thinking..." |} live in
         let '(result, live, sent) :=
           sendMessageTry env snap live userImage text overrideRefImage in
         let live :=
           match result with
           | Fulfilled _ => live
           | Rejected _ =>
               setChatHistory (fun prev => (prev ++ [errorMessage (now env 1)])%list) live
           end in
         (setGenerationState {| isGenerating := false; progress := EmptyString |} live, sent))
      (setChatHistory (fun prev => (prev ++ [chatMessage MODEL uploadFirst (now env 1)])%list) live,
       []).

Definition referenceUploadText : string :=
  "I've uploaded a picture of some glasses. Can I try them on?".

(** [handleReferenceImageUpload]: the call of [handleSendMessage] still
    sees the [referenceImage] of the render that created the handler. *)
Definition handleReferenceImageUpload (env : Env) (st : App) (base64 : string)
    : App * list GenerateContentRequest :=
  let live := setReferenceImage (Some base64) st in
  handleSendMessage env st live referenceUploadText (Some base64).

Definition handleStyleSelect (env : Env) (st : App) (style : StylistOption)
    : App * list GenerateContentRequest :=
  handleSendMessage env st st ("Can I try on " ++ label style ++ " glasses?") None.

Definition shopLookText : string :=
  "Find online shopping links for glasses that look exactly like the ones in this photo.".

Definition handleShopLook (env : Env) (st : App) : App * list GenerateContentRequest :=
  handleSendMessage env st st shopLookText None.

(** The button on the photo: [setUserImage(null); setGeneratedImage(null)]. *)
Definition removeUserImage (st : App) : App :=
  setGeneratedImage None (setUserImage None st).

(** The button on the reference picture: [setReferenceImage(null)]. *)
Definition removeReferenceImage (st : App) : App :=
  setReferenceImage None st.

(** What the user can do. *)
Inductive Event :=
| UserImageUpload (base64 : string)
| ReferenceImageUpload (base64 : string)
| StyleSelect (style : StylistOption)
| InputChange (value : string)
| Send
| ShopLook
| RemoveUserImage
| RemoveReferenceImage.

Definition step (env : Env) (st : App) (ev : Event) : App * list GenerateContentRequest :=
  match ev with
  | UserImageUpload base64 => (handleUserImageUpload env st base64, [])
  | ReferenceImageUpload base64 => handleReferenceImageUpload env st base64
  | StyleSelect style => handleStyleSelect env st style
  | InputChange value => (setInputMessage value st, [])
  | Send => handleSendMessage env st st (inputMessage st) None
  | ShopLook => handleShopLook env st
  | RemoveUserImage => (removeUserImage st, [])
  | RemoveReferenceImage => (removeReferenceImage st, [])
  end.

(** A session: the events in order, each with the environment it meets;
    the result is the final state and, per event, the requests it sent. *)
Fixpoint run (st : App) (events : list (Env * Event))
    : App * list (list GenerateContentRequest) :=
  match events with
  | [] => (st, [])
  | (env, ev) :: rest =>
      let '(st1, sent) := step env st ev in
      let '(st2, sents) := run st1 rest in
      (st2, sent :: sents)
  end.

(** The text input and the send button are disabled while generating. *)
Definition inputDisabled (st : App) : bool := isGenerating (generationState st).

(** The view the specification calls LookState. *)
Definition lookState (st : App) : option string * option string * option string :=
  (userImage st, generatedImage st, referenceImage st).

(** ** Vocabulary of the specification *)

(** The commerce keywords as the specification lists them. *)
Definition commerceKeywords : list string :=
  [ "buy"; "link"; "where"; "cost"; "price"; "brand"; "shop"; "find"; "similar" ].

(** A text that is empty or made of white space only. *)
Fixpoint whitespaceOnly (s : string) : bool :=
  match s with
  | EmptyString => true
  | String c rest => isWhiteSpace c && whitespaceOnly rest
  end.

Definition isModelTurn (m : ChatMessage) : bool :=
  match role m with
  | MODEL => true
  | _ => false
  end.

Definition isUserTurn (m : ChatMessage) : bool :=
  match role m with
  | USER => true
  | _ => false
  end.

(** The turns a handler appended, given the transcript before and after. *)
Definition appendedTurns (before after : list ChatMessage) : list ChatMessage :=
  skipn (length before) after.

(** The live state on entry to the [try] block. *)
Definition onEntry (env : Env) (live : App) (text : string) : App :=
  setGenerationState {| isGenerating := true; progress := "Thinking..." |}
    (setInputMessage EmptyString
       (setChatHistory (fun prev => (prev ++ [chatMessage USER text (now env 0)])%list) live)).

(** ** Sample data for the worked examples *)

Module Sample.

Definition basePhoto : string := "data:image/jpeg;base64,AAAA".
Definition glassesPhoto : string := "data:image/jpeg;base64,RRRR".

Definition imageResponse (payload : string) : GenerateContentResponse :=
  {| candidates :=
       Some [ {| contentParts :=
                   Some [ {| inlineData :=
                               Some {| blobData := payload; blobMimeType := "image/png" |} |} ];
                 groundingChunks := None |} ];
     responseText := None |}.

Definition textResponse (t : string) : GenerateContentResponse :=
  {| candidates :=
       Some [ {| contentParts := None;
                 groundingChunks :=
                   Some [ {| web := Some {| webUri := Some "https://shop.example/a";
                                            webTitle := Some "Round frames" |} |};
                          {| web := Some {| webUri := Some "https://shop.example/b";
                                            webTitle := None |} |};
                          {| web := None |} ] |} ];
     responseText := Some t |}.

(** A remote model that answers an image request with the payload BBBB
    and any other request with a short text. *)
Definition working : Env :=
  {| generateContent := fun request =>
       match responseModalities (config request) with
       | [IMAGE] => Fulfilled (imageResponse "BBBB")
       | _ => Fulfilled (textResponse "Try these.")
       end;
     now := fun k => Z.of_nat k |}.

(** A remote model that is unreachable. *)
Definition failing : Env :=
  {| generateContent := fun _ => Rejected "503 Service Unavailable";
     now := fun k => Z.of_nat k |}.

(** A session with a base photo and one synthesized look. *)
Definition styled : App :=
  {| userImage := Some basePhoto;
     generatedImage := Some "data:image/jpeg;base64,BBBB";
     referenceImage := None;
     chatHistory := [chatMessage MODEL greeting 0];
     inputMessage := EmptyString;
     generationState := {| isGenerating := false; progress := EmptyString |} |}.

(** A session with a base photo only. *)
Definition fresh : App := handleUserImageUpload working initialApp basePhoto.

(** Two edits in a row, typed into the input box. *)
Definition twoEdits : list (Env * Event) :=
  [ (working, UserImageUpload basePhoto);
    (working, InputChange "make the frames red");
    (working, Send);
    (working, InputChange "make them blue");
    (working, Send) ].

(** A reference picture is uploaded once; a greeting follows. *)
Definition referenceThenHello : list (Env * Event) :=
  [ (working, UserImageUpload basePhoto);
    (working, ReferenceImageUpload glassesPhoto);
    (working, InputChange "hello");
    (working, Send) ].

End Sample.

(** ** The rest of the component *)

(** The presets of the quick try-on panel. *)
Definition PRESET_STYLES : list StylistOption :=
  [ {| id := "aviator"; label := "Aviator"; icon := "🕶️";
       prompt := "wear classic gold rimmed aviator sunglasses" |};
    {| id := "wayfarer"; label := "Classic Wayfarer"; icon := "🎸";
       prompt := "wear black wayfarer style sunglasses" |};
    {| id := "cat-eye"; label := "Cat Eye"; icon := "😺";
       prompt := "wear vintage red cat-eye glasses" |};
    {| id := "round"; label := "Intellectual"; icon := "🤓";
       prompt := "wear thin round wire-rimmed glasses" |};
    {| id := "rimless"; label := "Minimalist"; icon := "👓";
       prompt := "wear modern rimless rectangular glasses" |} ].

(** The sentence [handleStyleSelect] submits. *)
Definition styleSelectText (style : StylistOption) : string :=
  "Can I try on " ++ label style ++ " glasses?".

(** [handleKeyDown]: Enter without Shift submits the input box. *)
Definition handleKeyDown (env : Env) (st : App) (key : string) (shiftKey : bool)
    : App * list GenerateContentRequest :=
  if (key =? "Enter") && negb shiftKey
  then handleSendMessage env st st (inputMessage st) None
  else (st, []).

(** The [disabled] attribute of the send button:
    [!inputMessage.trim() || generationState.isGenerating]. *)
Definition sendDisabled (st : App) : bool :=
  negb (truthyStr (trim (inputMessage st))) || isGenerating (generationState st).

(** The shopping suggestions rendered under a message:
    [msg.groundingUrls && msg.groundingUrls.length > 0] guards
    [msg.groundingUrls.slice(0,5)]. *)
Definition shownGroundingUrls (msg : ChatMessage) : list GroundingUrl :=
  match groundingUrls msg with
  | Some urls => if (0 <? length urls)%nat then firstn 5 urls else []
  | None => []
  end.

(** The requests [handleSendMessage] builds, as a function of the values
    its closure captured, the text and the reference image of the call. *)
Definition composedRequests (snap : App) (text : string) (overrideRefImage : option string)
    : list GenerateContentRequest :=
  if isEmptySubmission text overrideRefImage then []
  else
    whenTruthy (userImage snap)
      (fun u =>
         match intentFor detectIntent (currentRefImageOf snap overrideRefImage) text with
         | EDIT_IMAGE =>
             [eyewearRequest (cleanBase64 u) text
                (whenTruthy (currentRefImageOf snap overrideRefImage) cleanBase64 None)]
         | CHAT =>
             [stylistRequest text
                (whenTruthy (generatedImage snap) cleanBase64 (cleanBase64 u))
                (chatHistory snap)]
         end)
      [].

(** ** Vocabulary of the further properties *)

(** [k] occurs in [s] as a run of consecutive characters. *)
Definition occursIn (k s : string) : Prop :=
  exists pre post, s = pre ++ k ++ post.

(** [s] has no occurrence of the character [c]. *)
Fixpoint lacks (c : ascii) (s : string) : bool :=
  match s with
  | EmptyString => true
  | String d rest => negb (Ascii.eqb d c) && lacks c rest
  end.

(** A grounding chunk that carries both fields. *)
Definition webChunk (u t : string) : GroundingChunk :=
  {| web := Some {| webUri := Some u; webTitle := Some t |} |}.

(** A response part without inline data (a text part). *)
Definition textOnlyPart : ResponsePart := {| inlineData := None |}.

(** A remote model with one fixed answer. *)
Definition answering (response : GenerateContentResponse) : Env :=
  {| generateContent := fun _ => Fulfilled response;
     now := fun k => Z.of_nat k |}.

(** [l1] is [l2] with some elements deleted, the order kept. *)
Inductive Subsequence {A : Type} : list A -> list A -> Prop :=
| Subsequence_nil : Subsequence [] []
| Subsequence_keep (x : A) (l1 l2 : list A) :
    Subsequence l1 l2 -> Subsequence (x :: l1) (x :: l2)
| Subsequence_drop (x : A) (l1 l2 : list A) :
    Subsequence l1 l2 -> Subsequence l1 (x :: l2).

(** The chunk a grounding URL came from. *)
Definition chunkOf (g : GroundingUrl) : GroundingChunk := webChunk (uri g) (title g).

(** ** Worked examples *)

Example detectIntent_red : detectIntent "Make the frames red" = EDIT_IMAGE.
Proof. reflexivity. Qed.

Example detectIntent_buy : detectIntent "Where can I buy these?" = CHAT.
Proof. reflexivity. Qed.

Example detectIntent_hello : detectIntent "Hello!" = CHAT.
Proof. reflexivity. Qed.

Example trim_blank : trim "   " = EmptyString.
Proof. reflexivity. Qed.

Example trim_inner : trim "  a b  " = "a b".
Proof. reflexivity. Qed.

Example split_dataUrl :
  split "," "data:image/jpeg;base64,AAAA" = ["data:image/jpeg;base64"; "AAAA"].
Proof. reflexivity. Qed.

Example cleanBase64_no_comma : cleanBase64 "AAAA" = None.
Proof. reflexivity. Qed.

(** ** Basic facts about the primitives *)

Lemma truthy_Some (v : option string) :
  truthy v = true -> exists s, v = Some s /\ truthyStr s = true.
Proof.
  destruct v as [s|]; simpl; intros H.
  - exists s. split; [reflexivity | exact H].
  - discriminate H.
Qed.

Lemma whenTruthy_Some {A : Type} (s : string) (f : string -> A) (d : A) :
  truthyStr s = true -> whenTruthy (Some s) f d = f s.
Proof. intros H. unfold whenTruthy. rewrite H. reflexivity. Qed.

Lemma whenTruthy_falsy {A : Type} (v : option string) (f : string -> A) (d : A) :
  truthy v = false -> whenTruthy v f d = d.
Proof.
  destruct v as [s|]; simpl; intros H.
  - rewrite H. reflexivity.
  - reflexivity.
Qed.

Lemma orElse_truthy_l (a b : option string) :
  truthy a = true -> orElse a b = a.
Proof. intros H. unfold orElse. rewrite H. reflexivity. Qed.

Lemma orElse_falsy_l (a b : option string) :
  truthy a = false -> orElse a b = b.
Proof. intros H. unfold orElse. rewrite H. reflexivity. Qed.

Lemma trimStart_whitespaceOnly (s : string) :
  whitespaceOnly s = true -> trimStart s = EmptyString.
Proof.
  induction s as [|c rest IH]; simpl.
  - reflexivity.
  - intros H. apply andb_true_iff in H. destruct H as [Hc Hrest].
    rewrite Hc. exact (IH Hrest).
Qed.

Lemma trim_whitespaceOnly (s : string) :
  whitespaceOnly s = true -> trim s = EmptyString.
Proof.
  intros H. unfold trim. rewrite (trimStart_whitespaceOnly s H). reflexivity.
Qed.

Lemma isEmptySubmission_blank (text : string) (overrideRefImage : option string) :
  whitespaceOnly text = true -> truthy overrideRefImage = false ->
  isEmptySubmission text overrideRefImage = true.
Proof.
  intros Hblank Href. unfold isEmptySubmission.
  rewrite (trim_whitespaceOnly text Hblank), Href. reflexivity.
Qed.

(** ** The setters move one field *)

Lemma lookState_setChatHistory f st : lookState (setChatHistory f st) = lookState st.
Proof. reflexivity. Qed.

Lemma lookState_setInputMessage v st : lookState (setInputMessage v st) = lookState st.
Proof. reflexivity. Qed.

Lemma lookState_setGenerationState v st : lookState (setGenerationState v st) = lookState st.
Proof. reflexivity. Qed.

(** ** Unfolding [handleSendMessage] *)

(** Without a base photo an accepted submission ends after the prompt. *)
Lemma handleSendMessage_no_photo env snap live text overrideRefImage :
  isEmptySubmission text overrideRefImage = false ->
  truthy (userImage snap) = false ->
  handleSendMessage env snap live text overrideRefImage =
    (setChatHistory (fun prev => (prev ++ [chatMessage MODEL uploadFirst (now env 1)])%list)
       (setInputMessage EmptyString
          (setChatHistory (fun prev => (prev ++ [chatMessage USER text (now env 0)])%list) live)),
     []).
Proof.
  intros Hguard Hphoto. unfold handleSendMessage. rewrite Hguard.
  rewrite (whenTruthy_falsy _ _ _ Hphoto). reflexivity.
Qed.

(** With a base photo an accepted submission runs the [try] block, the
    [catch] and the [finally]. *)
Lemma handleSendMessage_pipeline env snap live text overrideRefImage u :
  isEmptySubmission text overrideRefImage = false ->
  userImage snap = Some u -> truthyStr u = true ->
  handleSendMessage env snap live text overrideRefImage =
    let '(result, live', sent) :=
      sendMessageTry env snap (onEntry env live text) u text overrideRefImage in
    (setGenerationState {| isGenerating := false; progress := EmptyString |}
       match result with
       | Fulfilled _ => live'
       | Rejected _ =>
           setChatHistory (fun prev => (prev ++ [errorMessage (now env 1)])%list) live'
       end,
     sent).
Proof.
  intros Hguard Hu Htruthy. unfold handleSendMessage. rewrite Hguard, Hu.
  rewrite (whenTruthy_Some u _ _ Htruthy). reflexivity.
Qed.

(** ** The intent classifier *)

Lemma commerce_keyword_is_chat (message k : string) :
  In k commerceKeywords -> includes (toLowerCase message) k = true ->
  detectIntent message = CHAT.
Proof.
  intros Hin Hinc. unfold detectIntent.
  assert (Hchain :
    includes (toLowerCase message) "buy" || includes (toLowerCase message) "link"
    || includes (toLowerCase message) "where" || includes (toLowerCase message) "cost"
    || includes (toLowerCase message) "price" || includes (toLowerCase message) "brand"
    || includes (toLowerCase message) "shop" || includes (toLowerCase message) "find"
    || includes (toLowerCase message) "similar" = true).
  { unfold commerceKeywords in Hin. simpl in Hin.
    repeat (destruct Hin as [Hk | Hin];
            [ subst k; rewrite Hinc; repeat rewrite orb_true_r; reflexivity | ]).
    contradiction. }
  cbv zeta. rewrite Hchain. reflexivity.
Qed.

(** C4. A text whose lower-cased form contains a commerce keyword and a
    visual keyword is classified CHAT (the route CONSULT) by [detectIntent],
    and that is the route of the turn whenever no reference image is in
    play: the commerce test comes before the visual one. *)
Theorem commerce_precedence (message : string) (currentRefImage : option string) :
  (exists k, In k commerceKeywords /\ includes (toLowerCase message) k = true) ->
  (exists k, In k visualKeywords /\ includes (toLowerCase message) k = true) ->
  truthy currentRefImage = false ->
  detectIntent message = CHAT
  /\ intentFor detectIntent currentRefImage message = CHAT.
Proof.
  intros [k [Hin Hinc]] _ Href.
  pose proof (commerce_keyword_is_chat message k Hin Hinc) as Hchat.
  split; [exact Hchat |].
  unfold intentFor. rewrite Href. exact Hchat.
Qed.

Lemma commerce_precedence_witness :
  detectIntent "Find similar gold frames" = CHAT
  /\ intentFor detectIntent None "Find similar gold frames" = CHAT.
Proof.
  apply (commerce_precedence "Find similar gold frames" None).
  - exists "find". split; [simpl; tauto | reflexivity].
  - exists "gold". split; [simpl; tauto | reflexivity].
  - reflexivity.
Defined.

(** C5. When a reference image is in play ([overrideRefImage ||
    referenceImage] is truthy) the route is EDIT_IMAGE for every text, the
    empty one included, whatever the text classifier would answer; and with
    a base photo the one request of the turn is the image request built from
    the base photo, the text and the reference image. *)
Theorem reference_forces_edit (classify : string -> Intent) (env : Env)
    (snap live : App) (text : string) (overrideRefImage : option string) (u : string) :
  truthy (currentRefImageOf snap overrideRefImage) = true ->
  intentFor classify (currentRefImageOf snap overrideRefImage) text = EDIT_IMAGE
  /\ intentFor classify (currentRefImageOf snap overrideRefImage) EmptyString = EDIT_IMAGE
  /\ (isEmptySubmission text overrideRefImage = false ->
      userImage snap = Some u -> truthyStr u = true ->
      snd (handleSendMessage env snap live text overrideRefImage) =
        [eyewearRequest (cleanBase64 u) text
           (whenTruthy (currentRefImageOf snap overrideRefImage) cleanBase64 None)]).
Proof.
  intros Href. unfold intentFor. rewrite Href.
  split; [reflexivity | split; [reflexivity |]].
  intros Hguard Hu Htruthy.
  rewrite (handleSendMessage_pipeline env snap live text overrideRefImage u Hguard Hu Htruthy).
  unfold sendMessageTry, intentFor. rewrite Href. cbv zeta.
  unfold generateEyewearImage.
  destruct (generateContent env _) as [response | error]; [| reflexivity].
  destruct (firstPart response) as [[[blob|]]|]; reflexivity.
Qed.

Lemma reference_forces_edit_witness :
  intentFor (fun _ => CHAT) (currentRefImageOf Sample.fresh (Some Sample.glassesPhoto))
    "where can I buy these" = EDIT_IMAGE
  /\ intentFor (fun _ => CHAT) (currentRefImageOf Sample.fresh (Some Sample.glassesPhoto))
       EmptyString = EDIT_IMAGE
  /\ snd (handleSendMessage Sample.working Sample.fresh Sample.fresh
            "where can I buy these" (Some Sample.glassesPhoto)) =
       [eyewearRequest (Some "AAAA") "where can I buy these" (Some "RRRR")].
Proof.
  destruct (reference_forces_edit (fun _ => CHAT) Sample.working Sample.fresh Sample.fresh
              "where can I buy these" (Some Sample.glassesPhoto) Sample.basePhoto)
    as [Htext [Hempty Hsent]].
  - reflexivity.
  - split; [exact Htext | split; [exact Hempty |]].
    apply Hsent; reflexivity.
Defined.

(** ** Submissions that stop before the pipeline *)

(** C10. A submission whose text is empty or white space only, with no
    reference image handed over in the call, changes nothing: the state is
    the one before (no turn appended, look untouched, progress indicator
    untouched) and no request is sent. *)
Theorem blank_submission_is_noop (env : Env) (snap live : App) (text : string)
    (overrideRefImage : option string) :
  whitespaceOnly text = true ->
  truthy overrideRefImage = false ->
  handleSendMessage env snap live text overrideRefImage = (live, [])
  /\ appendedTurns (chatHistory live)
       (chatHistory (fst (handleSendMessage env snap live text overrideRefImage))) = []
  /\ lookState (fst (handleSendMessage env snap live text overrideRefImage)) = lookState live.
Proof.
  intros Hblank Href.
  assert (Hnoop : handleSendMessage env snap live text overrideRefImage = (live, [])).
  { unfold handleSendMessage.
    rewrite (isEmptySubmission_blank text overrideRefImage Hblank Href). reflexivity. }
  rewrite Hnoop. simpl. split; [reflexivity | split; [| reflexivity]].
  unfold appendedTurns. apply skipn_all.
Qed.

Lemma blank_submission_is_noop_witness :
  handleSendMessage Sample.working Sample.styled Sample.styled "   " None
    = (Sample.styled, [])
  /\ appendedTurns (chatHistory Sample.styled)
       (chatHistory (fst (handleSendMessage Sample.working Sample.styled Sample.styled
                            "   " None))) = []
  /\ lookState (fst (handleSendMessage Sample.working Sample.styled Sample.styled "   " None))
     = lookState Sample.styled.
Proof.
  apply (blank_submission_is_noop Sample.working Sample.styled Sample.styled "   " None);
    reflexivity.
Defined.

Lemma appendedTurns_app (before added : list ChatMessage) :
  appendedTurns before (before ++ added) = added.
Proof.
  unfold appendedTurns. rewrite skipn_app, skipn_all, Nat.sub_diag. reflexivity.
Qed.

(** C6, as stated, fails on the empty submission: with no base photo, an
    empty text and no reference image the handler returns at its first
    line, and no MODEL turn is appended. *)
Lemma missing_photo_counterexample :
  userImage initialApp = None
  /\ handleSendMessage Sample.working initialApp initialApp EmptyString None
     = (initialApp, [])
  /\ filter isModelTurn
       (appendedTurns (chatHistory initialApp)
          (chatHistory (fst (handleSendMessage Sample.working initialApp initialApp
                               EmptyString None)))) = [].
Proof. repeat split. Qed.

(** C6, amended. For every accepted submission (a text that is not blank,
    or a reference image handed over in the call), when the base photo is
    unset the handler sends no request and never raises the progress
    indicator; it appends the USER turn and one MODEL turn that asks for a
    photo, whose [isError] field is not set, and leaves the look as it was. *)
Theorem missing_photo_prompt (env : Env) (snap live : App) (text : string)
    (overrideRefImage : option string) :
  isEmptySubmission text overrideRefImage = false ->
  truthy (userImage snap) = false ->
  let out := handleSendMessage env snap live text overrideRefImage in
  snd out = []
  /\ appendedTurns (chatHistory live) (chatHistory (fst out))
     = [chatMessage USER text (now env 0); chatMessage MODEL uploadFirst (now env 1)]
  /\ isError (chatMessage MODEL uploadFirst (now env 1)) = None
  /\ lookState (fst out) = lookState live
  /\ generationState (fst out) = generationState live.
Proof.
  intros Hguard Hphoto out. subst out.
  rewrite (handleSendMessage_no_photo env snap live text overrideRefImage Hguard Hphoto).
  simpl. repeat split.
  rewrite <- app_assoc. apply appendedTurns_app.
Qed.

Lemma missing_photo_prompt_witness :
  let out := handleSendMessage Sample.working initialApp initialApp
               "make the frames red" (Some Sample.glassesPhoto) in
  snd out = []
  /\ appendedTurns (chatHistory initialApp) (chatHistory (fst out))
     = [chatMessage USER "make the frames red" (now Sample.working 0);
        chatMessage MODEL uploadFirst (now Sample.working 1)]
  /\ isError (chatMessage MODEL uploadFirst (now Sample.working 1)) = None
  /\ lookState (fst out) = lookState initialApp
  /\ generationState (fst out) = generationState initialApp.
Proof.
  apply (missing_photo_prompt Sample.working initialApp initialApp
           "make the frames red" (Some Sample.glassesPhoto)); reflexivity.
Defined.

(** ** Removing the base photo *)

(** C9, as stated, fails: removing the base photo leaves a stored
    reference image in place. *)
Lemma remove_photo_counterexample :
  referenceImage
    (removeUserImage (setReferenceImage (Some Sample.glassesPhoto) Sample.styled))
  = Some Sample.glassesPhoto
  /\ referenceImage
       (removeUserImage (setReferenceImage (Some Sample.glassesPhoto) Sample.styled))
     <> None.
Proof. split; [reflexivity | discriminate]. Qed.

(** C9, amended. Removing the base photo clears [userImage] and
    [generatedImage]; [referenceImage], the transcript, the input box and
    the progress indicator keep their values. *)
Theorem remove_photo_clears_base_and_look (st : App) :
  userImage (removeUserImage st) = None
  /\ generatedImage (removeUserImage st) = None
  /\ referenceImage (removeUserImage st) = referenceImage st
  /\ chatHistory (removeUserImage st) = chatHistory st
  /\ inputMessage (removeUserImage st) = inputMessage st
  /\ generationState (removeUserImage st) = generationState st
  /\ (forall env, step env st RemoveUserImage = (removeUserImage st, [])).
Proof. repeat split. Qed.

(** ** The pipeline *)

(** The arguments the handler passes to [generateEyewearImage] and to
    [chatWithStylist]. *)
Lemma sendMessageTry_edit env snap live u text overrideRefImage :
  intentFor detectIntent (currentRefImageOf snap overrideRefImage) text = EDIT_IMAGE ->
  sendMessageTry env snap live u text overrideRefImage =
    let generating := setGenerationState
      {| isGenerating := true;
         progress := "Generating your new look... (using Gemini 2.5 Flash Image)" |} live in
    match generateEyewearImage env (cleanBase64 u) text
            (whenTruthy (currentRefImageOf snap overrideRefImage) cleanBase64 None) with
    | (Fulfilled newImageBase64, sent) =>
        (Fulfilled tt,
         setChatHistory (fun prev =>
           (prev ++ [chatMessage MODEL
                       (if truthy (currentRefImageOf snap overrideRefImage)
                        then referenceAck else editAck)
                       (now env 1)])%list)
           (setGeneratedImage (Some ("data:image/jpeg;base64," ++ newImageBase64)) generating),
         sent)
    | (Rejected error, sent) => (Rejected error, generating, sent)
    end.
Proof. intros Hintent. unfold sendMessageTry. rewrite Hintent. reflexivity. Qed.

Lemma sendMessageTry_chat env snap live u text overrideRefImage :
  intentFor detectIntent (currentRefImageOf snap overrideRefImage) text = CHAT ->
  sendMessageTry env snap live u text overrideRefImage =
    let consulting := setGenerationState
      {| isGenerating := true;
         progress := "Consulting the optical expert... (using Gemini 3 Pro)" |} live in
    match chatWithStylist env text
            (whenTruthy (generatedImage snap) cleanBase64 (cleanBase64 u))
            (chatHistory snap) with
    | (Fulfilled response, sent) =>
        (Fulfilled tt,
         setChatHistory (fun prev =>
           (prev ++ [{| role := MODEL;
                        text := replyText response;
                        timestamp := now env 1;
                        isError := None;
                        groundingUrls := Some (replyUrls response) |}])%list) consulting,
         sent)
    | (Rejected error, sent) => (Rejected error, consulting, sent)
    end.
Proof. intros Hintent. unfold sendMessageTry. rewrite Hintent. reflexivity. Qed.

Lemma generateEyewearImage_sent env base prompt ref :
  snd (generateEyewearImage env base prompt ref) = [eyewearRequest base prompt ref].
Proof.
  unfold generateEyewearImage.
  destruct (generateContent env _) as [response | error]; [| reflexivity].
  destruct (firstPart response) as [[[blob|]]|]; reflexivity.
Qed.

Lemma chatWithStylist_sent env msg img history :
  snd (chatWithStylist env msg img history) = [stylistRequest msg img history].
Proof.
  unfold chatWithStylist.
  destruct (generateContent env _) as [response | error]; reflexivity.
Qed.

(** A rejected [try] block leaves its live state with the look of the
    state it started from. *)
Lemma sendMessageTry_rejected_look env snap live u text overrideRefImage error live' sent :
  sendMessageTry env snap live u text overrideRefImage = (Rejected error, live', sent) ->
  lookState live' = lookState live
  /\ chatHistory live' = chatHistory live
  /\ inputMessage live' = inputMessage live.
Proof.
  unfold sendMessageTry.
  destruct (intentFor detectIntent _ text).
  - destruct (generateEyewearImage env _ text _) as [[bytes | e] tr]; intros H.
    + discriminate H.
    + injection H as _ Hlive _. subst live'. repeat split.
  - destruct (chatWithStylist env text _ _) as [[reply | e] tr]; intros H.
    + discriminate H.
    + injection H as _ Hlive _. subst live'. repeat split.
Qed.

(** C7. When the gateway call of an accepted turn fails, be it the image
    call of an EDIT_IMAGE turn or the stylist call of a CHAT turn, the look
    (base, current and reference image) is the one before the call, the
    turns appended are the USER turn and exactly one MODEL turn, which has
    [isError = true], and the progress indicator is back to idle, so the
    input is enabled again. *)
Theorem gateway_failure_is_contained (env : Env) (snap live : App) (text : string)
    (overrideRefImage : option string) (u error : string) :
  isEmptySubmission text overrideRefImage = false ->
  userImage snap = Some u -> truthyStr u = true ->
  (intentFor detectIntent (currentRefImageOf snap overrideRefImage) text = EDIT_IMAGE
   /\ fst (generateEyewearImage env (cleanBase64 u) text
             (whenTruthy (currentRefImageOf snap overrideRefImage) cleanBase64 None))
      = Rejected error)
  \/ (intentFor detectIntent (currentRefImageOf snap overrideRefImage) text = CHAT
      /\ fst (chatWithStylist env text
                (whenTruthy (generatedImage snap) cleanBase64 (cleanBase64 u))
                (chatHistory snap))
         = Rejected error) ->
  let after := fst (handleSendMessage env snap live text overrideRefImage) in
  lookState after = lookState live
  /\ appendedTurns (chatHistory live) (chatHistory after)
     = [chatMessage USER text (now env 0); errorMessage (now env 1)]
  /\ role (errorMessage (now env 1)) = MODEL
  /\ isError (errorMessage (now env 1)) = Some true
  /\ length (filter isModelTurn (appendedTurns (chatHistory live) (chatHistory after))) = 1
  /\ generationState after = {| isGenerating := false; progress := EmptyString |}
  /\ inputDisabled after = false.
Proof.
  intros Hguard Hu Htruthy Hfail after. subst after.
  rewrite (handleSendMessage_pipeline env snap live text overrideRefImage u Hguard Hu Htruthy).
  assert (Htry : exists live' sent,
    sendMessageTry env snap (onEntry env live text) u text overrideRefImage
      = (Rejected error, live', sent)).
  { destruct Hfail as [[Hintent Hrej] | [Hintent Hrej]].
    - rewrite (sendMessageTry_edit _ _ _ _ _ _ Hintent). cbv zeta.
      destruct (generateEyewearImage env _ text _) as [[bytes | e] tr]; simpl in Hrej.
      + discriminate Hrej.
      + injection Hrej as He. subst e. eauto.
    - rewrite (sendMessageTry_chat _ _ _ _ _ _ Hintent). cbv zeta.
      destruct (chatWithStylist env text _ _) as [[reply | e] tr]; simpl in Hrej.
      + discriminate Hrej.
      + injection Hrej as He. subst e. eauto. }
  destruct Htry as [live' [sent Htry]]. rewrite Htry.
  destruct (sendMessageTry_rejected_look _ _ _ _ _ _ _ _ _ Htry) as [Hlook [Hchat _]].
  cbn [fst].
  assert (Happended :
    appendedTurns (chatHistory live)
      (chatHistory
         (setGenerationState {| isGenerating := false; progress := EmptyString |}
            (setChatHistory (fun prev => (prev ++ [errorMessage (now env 1)])%list) live')))
    = [chatMessage USER text (now env 0); errorMessage (now env 1)]).
  { cbn [chatHistory setGenerationState setChatHistory]. rewrite Hchat.
    cbn [chatHistory onEntry setGenerationState setInputMessage setChatHistory].
    rewrite <- app_assoc. apply appendedTurns_app. }
  rewrite Happended.
  split.
  { rewrite lookState_setGenerationState, lookState_setChatHistory, Hlook. reflexivity. }
  repeat split.
Qed.

Lemma gateway_failure_is_contained_witness :
  let after := fst (handleSendMessage Sample.failing Sample.styled Sample.styled
                      "where can I buy these" None) in
  lookState after = lookState Sample.styled
  /\ appendedTurns (chatHistory Sample.styled) (chatHistory after)
     = [chatMessage USER "where can I buy these" (now Sample.failing 0);
        errorMessage (now Sample.failing 1)]
  /\ role (errorMessage (now Sample.failing 1)) = MODEL
  /\ isError (errorMessage (now Sample.failing 1)) = Some true
  /\ length (filter isModelTurn
               (appendedTurns (chatHistory Sample.styled) (chatHistory after))) = 1
  /\ generationState after = {| isGenerating := false; progress := EmptyString |}
  /\ inputDisabled after = false.
Proof.
  apply (gateway_failure_is_contained Sample.failing Sample.styled Sample.styled
           "where can I buy these" None Sample.basePhoto "503 Service Unavailable").
  - reflexivity.
  - reflexivity.
  - reflexivity.
  - right. split; reflexivity.
Defined.

(** A fulfilled [try] block of an EDIT_IMAGE turn. *)
Lemma sendMessageTry_edit_fulfilled env snap live u text overrideRefImage bytes :
  intentFor detectIntent (currentRefImageOf snap overrideRefImage) text = EDIT_IMAGE ->
  fst (generateEyewearImage env (cleanBase64 u) text
         (whenTruthy (currentRefImageOf snap overrideRefImage) cleanBase64 None))
    = Fulfilled bytes ->
  sendMessageTry env snap live u text overrideRefImage =
    (Fulfilled tt,
     setChatHistory (fun prev =>
       (prev ++ [chatMessage MODEL
                   (if truthy (currentRefImageOf snap overrideRefImage)
                    then referenceAck else editAck)
                   (now env 1)])%list)
       (setGeneratedImage (Some ("data:image/jpeg;base64," ++ bytes))
          (setGenerationState
             {| isGenerating := true;
                progress := "Generating your new look... (using Gemini 2.5 Flash Image)" |}
             live)),
     [eyewearRequest (cleanBase64 u) text
        (whenTruthy (currentRefImageOf snap overrideRefImage) cleanBase64 None)]).
Proof.
  intros Hintent Hok. rewrite (sendMessageTry_edit _ _ _ _ _ _ Hintent). cbv zeta.
  pose proof (generateEyewearImage_sent env (cleanBase64 u) text
    (whenTruthy (currentRefImageOf snap overrideRefImage) cleanBase64 None)) as Hsent.
  destruct (generateEyewearImage env _ text _) as [[b | e] tr]; simpl in Hok, Hsent.
  - injection Hok as Hb. subst b tr. reflexivity.
  - discriminate Hok.
Qed.

(** The payload of the data URL the handler stores. *)
Lemma cleanBase64_stored (bytes : string) :
  cleanBase64 ("data:image/jpeg;base64," ++ bytes) = hd_error (split "," bytes).
Proof.
  unfold cleanBase64. simpl.
  destruct (split "," bytes) as [|piece pieces]; reflexivity.
Qed.

(** C8. After a successful EDIT_IMAGE pipeline [generatedImage] holds the
    bytes the image call returned, as a JPEG data URL; [userImage] is the
    one before; the turns appended are the USER turn and exactly one MODEL
    turn. *)
Theorem edit_success_updates_look (env : Env) (snap live : App) (text : string)
    (overrideRefImage : option string) (u bytes : string) :
  isEmptySubmission text overrideRefImage = false ->
  userImage snap = Some u -> truthyStr u = true ->
  intentFor detectIntent (currentRefImageOf snap overrideRefImage) text = EDIT_IMAGE ->
  fst (generateEyewearImage env (cleanBase64 u) text
         (whenTruthy (currentRefImageOf snap overrideRefImage) cleanBase64 None))
    = Fulfilled bytes ->
  let after := fst (handleSendMessage env snap live text overrideRefImage) in
  generatedImage after = Some ("data:image/jpeg;base64," ++ bytes)
  /\ whenTruthy (generatedImage after) cleanBase64 None = hd_error (split "," bytes)
  /\ userImage after = userImage live
  /\ appendedTurns (chatHistory live) (chatHistory after)
     = [chatMessage USER text (now env 0);
        chatMessage MODEL
          (if truthy (currentRefImageOf snap overrideRefImage) then referenceAck else editAck)
          (now env 1)]
  /\ length (filter isModelTurn (appendedTurns (chatHistory live) (chatHistory after))) = 1.
Proof.
  intros Hguard Hu Htruthy Hintent Hok after. subst after.
  rewrite (handleSendMessage_pipeline env snap live text overrideRefImage u Hguard Hu Htruthy).
  rewrite (sendMessageTry_edit_fulfilled _ _ _ _ _ _ _ Hintent Hok).
  cbn [fst generatedImage userImage chatHistory setGenerationState setChatHistory
       setGeneratedImage setInputMessage onEntry].
  assert (Happended :
    appendedTurns (chatHistory live)
      ((chatHistory live ++ [chatMessage USER text (now env 0)]) ++
       [chatMessage MODEL
          (if truthy (currentRefImageOf snap overrideRefImage) then referenceAck else editAck)
          (now env 1)])%list
    = [chatMessage USER text (now env 0);
       chatMessage MODEL
         (if truthy (currentRefImageOf snap overrideRefImage) then referenceAck else editAck)
         (now env 1)]).
  { rewrite <- app_assoc. apply appendedTurns_app. }
  rewrite Happended.
  split; [reflexivity |].
  split; [rewrite whenTruthy_Some by reflexivity; apply cleanBase64_stored |].
  repeat split.
Qed.

Lemma edit_success_updates_look_witness :
  let after := fst (handleSendMessage Sample.working Sample.fresh Sample.fresh
                      "make the frames red" None) in
  generatedImage after = Some ("data:image/jpeg;base64," ++ "BBBB")
  /\ whenTruthy (generatedImage after) cleanBase64 None = hd_error (split "," "BBBB")
  /\ userImage after = userImage Sample.fresh
  /\ appendedTurns (chatHistory Sample.fresh) (chatHistory after)
     = [chatMessage USER "make the frames red" (now Sample.working 0);
        chatMessage MODEL
          (if truthy (currentRefImageOf Sample.fresh None) then referenceAck else editAck)
          (now Sample.working 1)]
  /\ length (filter isModelTurn
               (appendedTurns (chatHistory Sample.fresh) (chatHistory after))) = 1.
Proof.
  apply (edit_success_updates_look Sample.working Sample.fresh Sample.fresh
           "make the frames red" None Sample.basePhoto "BBBB"); reflexivity.
Defined.

(** ** Which image an edit starts from *)

(** C1, as stated, fails: after a first successful edit [generatedImage]
    holds the payload BBBB, and the request of the next EDIT_IMAGE turn
    still carries the payload AAAA of the base photo as its first image. *)
Lemma edit_base_counterexample :
  let before := fst (run initialApp (firstn 4 Sample.twoEdits)) in
  userImage before = Some "data:image/jpeg;base64,AAAA"
  /\ generatedImage before = Some "data:image/jpeg;base64,BBBB"
  /\ inputMessage before = "make them blue"
  /\ intentFor detectIntent (currentRefImageOf before None) (inputMessage before) = EDIT_IMAGE
  /\ map (fun request => hd_error (parts request)) (snd (step Sample.working before Send))
     = [Some (InlinePart (Some "AAAA") "image/jpeg")]
  /\ map (fun request => hd_error (parts request)) (snd (step Sample.working before Send))
     <> [Some (InlinePart (whenTruthy (generatedImage before) cleanBase64 None) "image/jpeg")].
Proof.
  vm_compute. repeat split. discriminate.
Qed.

(** C1, amended. Every EDIT_IMAGE turn sends one request, whose first
    attached image is the payload of [userImage], the base photo; this is so
    whatever [generatedImage] holds, also after a successful edit. *)
Theorem edit_base_is_user_photo (env : Env) (snap live : App) (text : string)
    (overrideRefImage : option string) (u : string) :
  isEmptySubmission text overrideRefImage = false ->
  userImage snap = Some u -> truthyStr u = true ->
  intentFor detectIntent (currentRefImageOf snap overrideRefImage) text = EDIT_IMAGE ->
  forall look : option string,
    snd (handleSendMessage env (setGeneratedImage look snap) live text overrideRefImage)
      = [eyewearRequest (cleanBase64 u) text
           (whenTruthy (currentRefImageOf snap overrideRefImage) cleanBase64 None)]
    /\ hd_error (parts (eyewearRequest (cleanBase64 u) text
                          (whenTruthy (currentRefImageOf snap overrideRefImage)
                             cleanBase64 None)))
       = Some (InlinePart (cleanBase64 u) "image/jpeg").
Proof.
  intros Hguard Hu Htruthy Hintent look. split.
  - rewrite (handleSendMessage_pipeline env (setGeneratedImage look snap) live text
               overrideRefImage u Hguard Hu Htruthy).
    assert (Hintent' :
      intentFor detectIntent (currentRefImageOf (setGeneratedImage look snap) overrideRefImage)
        text = EDIT_IMAGE) by exact Hintent.
    rewrite (sendMessageTry_edit _ _ _ _ _ _ Hintent'). cbv zeta.
    change (currentRefImageOf (setGeneratedImage look snap) overrideRefImage)
      with (currentRefImageOf snap overrideRefImage).
    pose proof (generateEyewearImage_sent env (cleanBase64 u) text
      (whenTruthy (currentRefImageOf snap overrideRefImage) cleanBase64 None)) as Hsent.
    destruct (generateEyewearImage env _ text _) as [[b | e] tr]; simpl in Hsent;
      subst tr; reflexivity.
  - unfold eyewearRequest.
    destruct (truthy (whenTruthy _ cleanBase64 None)); reflexivity.
Qed.

Lemma edit_base_is_user_photo_witness :
  snd (handleSendMessage Sample.working
         (setGeneratedImage (Some "data:image/jpeg;base64,BBBB") Sample.fresh)
         Sample.styled "make them blue" None)
    = [eyewearRequest (cleanBase64 Sample.basePhoto) "make them blue"
         (whenTruthy (currentRefImageOf Sample.fresh None) cleanBase64 None)]
  /\ hd_error (parts (eyewearRequest (cleanBase64 Sample.basePhoto) "make them blue"
                        (whenTruthy (currentRefImageOf Sample.fresh None) cleanBase64 None)))
     = Some (InlinePart (cleanBase64 Sample.basePhoto) "image/jpeg").
Proof.
  apply (edit_base_is_user_photo Sample.working Sample.fresh Sample.styled
           "make them blue" None Sample.basePhoto); reflexivity.
Defined.

(** ** The stored reference image *)

Lemma sendMessageTry_reference env snap live u text overrideRefImage :
  referenceImage (snd (fst (sendMessageTry env snap live u text overrideRefImage)))
    = referenceImage live.
Proof.
  unfold sendMessageTry.
  destruct (intentFor detectIntent _ text).
  - destruct (generateEyewearImage env _ text _) as [[b | e] tr]; reflexivity.
  - destruct (chatWithStylist env text _ _) as [[reply | e] tr]; reflexivity.
Qed.

(** [handleSendMessage] never writes [referenceImage]. *)
Lemma handleSendMessage_reference env snap live text overrideRefImage :
  referenceImage (fst (handleSendMessage env snap live text overrideRefImage))
    = referenceImage live.
Proof.
  unfold handleSendMessage.
  destruct (isEmptySubmission text overrideRefImage); [reflexivity |].
  unfold whenTruthy.
  destruct (userImage snap) as [u|]; [| reflexivity].
  destruct (truthyStr u); [| reflexivity].
  pose proof (sendMessageTry_reference env snap
    (setGenerationState {| isGenerating := true; progress := "Thinking..." |}
       (setInputMessage EmptyString
          (setChatHistory (fun prev => (prev ++ [chatMessage USER text (now env 0)])%list) live)))
    u text overrideRefImage) as Href.
  destruct (sendMessageTry env snap _ u text overrideRefImage) as [[result live'] sent].
  simpl in Href. destruct result; simpl; exact Href.
Qed.

(** C3. The code departs from the claim.  A reference picture uploaded
    once stays in [referenceImage], and [overrideRefImage || referenceImage]
    picks it up again in every later submission: in the session below the
    picture RRRR is attached to the request of the upload turn and again to
    the request of the typed message that follows, which says hello,
    supplies no picture and is CHAT for [detectIntent].  After the upload
    turn every accepted text, a shopping question included, goes out as an
    image request with RRRR as its second image. *)
Theorem stored_reference_reaches_later_turn (env : Env) (text : string) :
  let st := fst (run initialApp (firstn 2 Sample.referenceThenHello)) in
  snd (run initialApp Sample.referenceThenHello)
    = [ [];
        [eyewearRequest (Some "AAAA") referenceUploadText (Some "RRRR")];
        [];
        [eyewearRequest (Some "AAAA") "hello" (Some "RRRR")] ]
  /\ nth_error (parts (eyewearRequest (Some "AAAA") "hello" (Some "RRRR"))) 1
     = Some (InlinePart (Some "RRRR") "image/jpeg")
  /\ detectIntent "hello" = CHAT
  /\ referenceImage st = Some Sample.glassesPhoto
  /\ snd (handleSendMessage env st st text None)
     = (if isEmptySubmission text None then []
        else [eyewearRequest (Some "AAAA") text (Some "RRRR")]).
Proof.
  intros st.
  split; [vm_compute; reflexivity |].
  split; [reflexivity |].
  split; [reflexivity |].
  split; [reflexivity |].
  destruct (isEmptySubmission text None) eqn:Hguard.
  - unfold handleSendMessage. rewrite Hguard. reflexivity.
  - rewrite (handleSendMessage_pipeline env st st text None Sample.basePhoto
               Hguard eq_refl eq_refl).
    assert (Hintent :
      intentFor detectIntent (currentRefImageOf st None) text = EDIT_IMAGE)
      by reflexivity.
    rewrite (sendMessageTry_edit _ _ _ _ _ _ Hintent). cbv zeta.
    pose proof (generateEyewearImage_sent env (cleanBase64 Sample.basePhoto) text
      (whenTruthy (currentRefImageOf st None) cleanBase64 None)) as Hsent.
    destruct (generateEyewearImage env _ text _) as [[b | e] tr]; simpl in Hsent;
      subst tr; reflexivity.
Qed.

(** ** The stylist request *)

(** C2. The request of a CHAT turn is the image of the present look
    (when its payload is not empty) with the caption on the frames, then the
    raw text; the transcript handed to [chatWithStylist] is not read, so the
    request and the reply are the same for every transcript and the
    transcript is no part of the request. *)
Theorem stylist_request_ignores_history (env : Env) (msg : string)
    (currentImageBase64 : option string) (history : list ChatMessage) :
  chatWithStylist env msg currentImageBase64 history
    = chatWithStylist env msg currentImageBase64 []
  /\ parts (stylistRequest msg currentImageBase64 history)
     = (if truthy currentImageBase64
        then [InlinePart currentImageBase64 "image/jpeg"; TextPart lookCaption; TextPart msg]
        else [TextPart msg])
  /\ snd (handleSendMessage Sample.working Sample.styled Sample.styled
            "where can I buy these" None)
     = [ {| model := "gemini-3-pro-preview";
            parts := [InlinePart (Some "BBBB") "image/jpeg";
                      TextPart lookCaption;
                      TextPart "where can I buy these"];
            config := {| responseModalities := [];
                         tools := [GoogleSearch];
                         systemInstruction := Some stylistInstruction |} |} ].
Proof.
  split; [reflexivity |].
  split; [| reflexivity].
  unfold stylistRequest. destruct (truthy currentImageBase64); reflexivity.
Qed.

(** ** Further properties: the string primitives *)

Lemma prefix_occurs (p s : string) :
  String.prefix p s = true <-> exists post, s = p ++ post.
Proof.
  revert s. induction p as [|c p IH]; intros s.
  - simpl. split; [intros _; exists s; reflexivity | intros _; destruct s; reflexivity].
  - destruct s as [|d s]; simpl.
    + split; [discriminate | intros [post H]; discriminate H].
    + destruct (ascii_dec c d) as [Heq | Hneq].
      * subst d. rewrite IH. split; intros [post H]; exists post.
        -- rewrite H. reflexivity.
        -- injection H as H. exact H.
      * split; [discriminate |].
        intros [post H]. injection H as Hd _. symmetry in Hd. contradiction.
Qed.

(** [includes] is the substring test. *)
Lemma includes_occurs (s sub : string) :
  includes s sub = true <-> occursIn sub s.
Proof.
  unfold occursIn. induction s as [|c s IH].
  - cbn [includes]. rewrite orb_false_r, prefix_occurs. split.
    + intros [post H]. exists EmptyString, post. exact H.
    + intros [pre [post H]]. destruct pre as [|d pre]; [| discriminate H].
      exists post. exact H.
  - cbn [includes]. rewrite orb_true_iff, prefix_occurs, IH. split.
    + intros [[post H] | [pre [post H]]].
      * exists EmptyString, post. exact H.
      * exists (String c pre), post. rewrite H. reflexivity.
    + intros [pre [post H]]. destruct pre as [|d pre].
      * left. exists post. exact H.
      * right. injection H as _ H. exists pre, post. exact H.
Qed.

Lemma includes_false_occurs (s sub : string) :
  includes s sub = false <-> ~ occursIn sub s.
Proof.
  rewrite <- includes_occurs. destruct (includes s sub); split; intros H.
  - discriminate H.
  - exfalso. apply H. reflexivity.
  - discriminate.
  - reflexivity.
Qed.

Lemma toLowerCase_app (a b : string) :
  toLowerCase (a ++ b) = toLowerCase a ++ toLowerCase b.
Proof.
  induction a as [|c a IH]; simpl; [reflexivity | rewrite IH; reflexivity].
Qed.

Lemma lowerChar_idempotent (c : ascii) : lowerChar (lowerChar c) = lowerChar c.
Proof.
  destruct c as [[] [] [] [] [] [] [] []]; reflexivity.
Qed.

Lemma toLowerCase_idempotent (s : string) :
  toLowerCase (toLowerCase s) = toLowerCase s.
Proof.
  induction s as [|c s IH]; simpl; [reflexivity |].
  rewrite lowerChar_idempotent, IH. reflexivity.
Qed.

Lemma trimEnd_empty (s : string) :
  trimEnd s = EmptyString <-> whitespaceOnly s = true.
Proof.
  induction s as [|c s IH]; simpl.
  - split; reflexivity.
  - destruct (isWhiteSpace c); simpl.
    + rewrite <- IH. destruct (trimEnd s); simpl; split; intros H;
        try reflexivity; discriminate H.
    + split; discriminate.
Qed.

Lemma trimStart_blank (s : string) :
  whitespaceOnly (trimStart s) = whitespaceOnly s.
Proof.
  induction s as [|c s IH]; simpl; [reflexivity |].
  destruct (isWhiteSpace c) eqn:Hc; simpl.
  - exact IH.
  - rewrite Hc. reflexivity.
Qed.

Lemma trim_empty (s : string) :
  trim s = EmptyString <-> whitespaceOnly s = true.
Proof.
  unfold trim. rewrite trimEnd_empty, trimStart_blank. reflexivity.
Qed.

Lemma truthyStr_false (s : string) : truthyStr s = false <-> s = EmptyString.
Proof.
  unfold truthyStr. rewrite negb_false_iff. apply String.eqb_eq.
Qed.

Lemma split_lacks (sep : ascii) (s : string) :
  lacks sep s = true -> split sep s = [s].
Proof.
  induction s as [|c s IH]; simpl; [reflexivity |].
  intros H. apply andb_true_iff in H. destruct H as [Hc Hs].
  apply negb_true_iff in Hc. rewrite Hc, (IH Hs). reflexivity.
Qed.

Lemma split_at_separator (sep : ascii) (h p : string) :
  lacks sep h = true -> split sep (h ++ String sep p) = h :: split sep p.
Proof.
  induction h as [|c h IH]; simpl.
  - intros _. rewrite Ascii.eqb_refl. reflexivity.
  - intros H. apply andb_true_iff in H. destruct H as [Hc Hh].
    apply negb_true_iff in Hc. rewrite Hc, (IH Hh). reflexivity.
Qed.

Lemma split_two_pieces (sep : ascii) (s : string) :
  lacks sep s = false -> exists a b rest, split sep s = a :: b :: rest.
Proof.
  induction s as [|c s IH]; simpl; [discriminate |].
  intros H. destruct (Ascii.eqb c sep) eqn:Hc; simpl in H.
  - destruct (split sep s) as [|x xs] eqn:Hsplit.
    + destruct s; simpl in Hsplit; [discriminate Hsplit |].
      destruct (Ascii.eqb a sep); [discriminate Hsplit |].
      destruct (split sep s); discriminate Hsplit.
    + exists EmptyString, x, xs. reflexivity.
  - destruct (IH H) as [a [b [rest Hsplit]]]. rewrite Hsplit.
    exists (String c a), b, rest. reflexivity.
Qed.

(** ** Further properties: the intent classifier *)

Lemma commerce_chain (l : string) :
  includes l "buy" || includes l "link" || includes l "where" || includes l "cost"
  || includes l "price" || includes l "brand" || includes l "shop" || includes l "find"
  || includes l "similar"
  = existsb (fun k => includes l k) commerceKeywords.
Proof.
  unfold commerceKeywords. cbn [existsb]. rewrite orb_false_r.
  repeat rewrite orb_assoc. reflexivity.
Qed.

(** X1. [detectIntent] answers EDIT_IMAGE exactly when the lower-cased
    message contains no commerce keyword and contains a visual keyword,
    keywords being matched as substrings; in every other case, a message
    with no keyword at all included, it answers CHAT. *)
Theorem detectIntent_edit_iff (message : string) :
  (detectIntent message = EDIT_IMAGE <->
   (forall k, In k commerceKeywords -> ~ occursIn k (toLowerCase message))
   /\ (exists k, In k visualKeywords /\ occursIn k (toLowerCase message)))
  /\ (detectIntent message = CHAT <-> detectIntent message <> EDIT_IMAGE).
Proof.
  split.
  - unfold detectIntent. cbv zeta. rewrite commerce_chain.
    destruct (existsb (fun k => includes (toLowerCase message) k) commerceKeywords) eqn:Hc.
    + split; [discriminate |]. intros [Hnone _]. exfalso.
      apply existsb_exists in Hc. destruct Hc as [k [Hin Hinc]].
      apply (Hnone k Hin). apply includes_occurs. exact Hinc.
    + assert (Hnone : forall k, In k commerceKeywords -> ~ occursIn k (toLowerCase message)).
      { intros k Hin Hocc. apply includes_occurs in Hocc.
        assert (Hex : existsb (fun k => includes (toLowerCase message) k) commerceKeywords
                      = true).
        { apply existsb_exists. exists k. split; assumption. }
        rewrite Hc in Hex. discriminate Hex. }
      destruct (existsb (fun k => includes (toLowerCase message) k) visualKeywords) eqn:Hv.
      * split; [| reflexivity]. intros _. split; [exact Hnone |].
        apply existsb_exists in Hv. destruct Hv as [k [Hin Hinc]].
        exists k. split; [exact Hin | apply includes_occurs; exact Hinc].
      * split; [discriminate |]. intros [_ [k [Hin Hocc]]]. exfalso.
        apply includes_occurs in Hocc.
        assert (Hex : existsb (fun k => includes (toLowerCase message) k) visualKeywords
                      = true).
        { apply existsb_exists. exists k. split; assumption. }
        rewrite Hv in Hex. discriminate Hex.
  - destruct (detectIntent message); split; intros H;
      try reflexivity; try discriminate H; try discriminate.
    exfalso. apply H. reflexivity.
Qed.

(** X2. The classifier does not see the case of letters: a message and its
    lower-cased form get the same intent. *)
Theorem detectIntent_case_insensitive (message : string) :
  detectIntent (toLowerCase message) = detectIntent message.
Proof.
  unfold detectIntent. rewrite toLowerCase_idempotent. reflexivity.
Qed.

(** X3. A commerce keyword anywhere in the message, in any mix of upper
    and lower case and also inside a longer word, makes the message CHAT,
    whatever stands before and after it. *)
Theorem commerce_substring_is_chat (pre word post k : string) :
  In k commerceKeywords -> toLowerCase word = k ->
  detectIntent (pre ++ word ++ post) = CHAT.
Proof.
  intros Hin Hword.
  apply (commerce_keyword_is_chat (pre ++ word ++ post) k Hin).
  apply includes_occurs. exists (toLowerCase pre), (toLowerCase post).
  rewrite !toLowerCase_app, Hword. reflexivity.
Qed.

Lemma commerce_substring_is_chat_witness :
  detectIntent ("Make it red, no" ++ "WHERE" ++ "VER you like") = CHAT.
Proof.
  apply (commerce_substring_is_chat "Make it red, no" "WHERE" "VER you like" "where").
  - simpl; tauto.
  - reflexivity.
Defined.

(** ** Further properties: the service functions *)

Lemma chatWithStylist_fulfilled env msg img history response :
  generateContent env (stylistRequest msg img history) = Fulfilled response ->
  fst (chatWithStylist env msg img history)
    = Fulfilled
        {| replyText := orDefault (responseText response)
                          "I couldn't generate a text response.";
           replyUrls := map toGroundingUrl
                          (filter hasUriAndTitle (groundingChunksOf response)) |}.
Proof. intros H. unfold chatWithStylist. rewrite H. reflexivity. Qed.

Lemma orDefault_truthy (v : option string) (fallback : string) :
  truthyStr fallback = true -> truthyStr (orDefault v fallback) = true.
Proof.
  intros H. unfold orDefault. destruct v as [s|]; [| exact H].
  destruct (truthyStr s) eqn:Hs; [exact Hs | exact H].
Qed.

(** X4. The text of a stylist reply is never empty: it is the text of the
    response when that is not empty, and the canned sentence otherwise. *)
Theorem stylist_reply_never_empty (env : Env) (msg : string) (img : option string)
    (history : list ChatMessage) (response : GenerateContentResponse)
    (reply : StylistReply) :
  generateContent env (stylistRequest msg img history) = Fulfilled response ->
  fst (chatWithStylist env msg img history) = Fulfilled reply ->
  truthyStr (replyText reply) = true
  /\ (if truthy (responseText response)
      then responseText response = Some (replyText reply)
      else replyText reply = "I couldn't generate a text response.").
Proof.
  intros Hresp Hreply.
  rewrite (chatWithStylist_fulfilled _ _ _ _ _ Hresp) in Hreply.
  injection Hreply as Hreply. subst reply. cbn [replyText]. split.
  - apply orDefault_truthy. reflexivity.
  - unfold orDefault, truthy. destruct (responseText response) as [t|]; [| reflexivity].
    destruct (truthyStr t); reflexivity.
Qed.

Lemma stylist_reply_never_empty_witness :
  truthyStr "I couldn't generate a text response." = true
  /\ (if truthy (Some EmptyString)
      then Some EmptyString = Some "I couldn't generate a text response."
      else "I couldn't generate a text response." = "I couldn't generate a text response.").
Proof.
  apply (stylist_reply_never_empty
           (answering {| candidates := None; responseText := Some EmptyString |})
           "hello" None []
           {| candidates := None; responseText := Some EmptyString |}
           {| replyText := "I couldn't generate a text response."; replyUrls := [] |});
    reflexivity.
Defined.

Lemma hasUriAndTitle_webChunk (chunk : GroundingChunk) :
  hasUriAndTitle chunk = true ->
  exists u t, chunk = webChunk u t /\ truthyStr u = true /\ truthyStr t = true.
Proof.
  destruct chunk as [[[[u|] [t|]]|]]; unfold hasUriAndTitle; simpl; intros H;
    try discriminate H.
  - apply andb_true_iff in H. destruct H as [Hu Ht]. exists u, t. repeat split; assumption.
  - rewrite andb_false_r in H. discriminate H.
Qed.

(** X5. The citations of a stylist reply are exactly the grounding chunks
    of the response that carry both a non-empty uri and a non-empty title:
    chunks without a web source, or with a missing or empty field, are left
    out, and nothing else is added. *)
Theorem stylist_urls_complete (env : Env) (msg : string) (img : option string)
    (history : list ChatMessage) (response : GenerateContentResponse)
    (reply : StylistReply) :
  generateContent env (stylistRequest msg img history) = Fulfilled response ->
  fst (chatWithStylist env msg img history) = Fulfilled reply ->
  forall g : GroundingUrl,
    In g (replyUrls reply) <->
    (truthyStr (uri g) = true /\ truthyStr (title g) = true
     /\ In (chunkOf g) (groundingChunksOf response)).
Proof.
  intros Hresp Hreply g.
  rewrite (chatWithStylist_fulfilled _ _ _ _ _ Hresp) in Hreply.
  injection Hreply as Hreply. subst reply. cbn [replyUrls].
  rewrite in_map_iff. split.
  - intros [chunk [Hg Hin]]. apply filter_In in Hin. destruct Hin as [Hin Hok].
    destruct (hasUriAndTitle_webChunk chunk Hok) as [u [t [Hchunk [Hu Ht]]]].
    subst chunk g. simpl. unfold chunkOf. simpl. repeat split; assumption.
  - intros [Hu [Ht Hin]]. exists (chunkOf g). split.
    + destruct g as [t u]. reflexivity.
    + apply filter_In. split; [exact Hin |].
      unfold hasUriAndTitle, chunkOf, webChunk. simpl. simpl in Hu, Ht.
      rewrite Hu, Ht. reflexivity.
Qed.

Lemma stylist_urls_complete_witness :
  In {| title := "Round frames"; uri := "https://shop.example/a" |}
     [ {| title := "Round frames"; uri := "https://shop.example/a" |} ]
  <-> (truthyStr "https://shop.example/a" = true /\ truthyStr "Round frames" = true
       /\ In (chunkOf {| title := "Round frames"; uri := "https://shop.example/a" |})
            (groundingChunksOf (Sample.textResponse "Try these."))).
Proof.
  exact (stylist_urls_complete Sample.working "where can I buy these" (Some "AAAA") []
           (Sample.textResponse "Try these.")
           {| replyText := "Try these.";
              replyUrls := [ {| title := "Round frames"; uri := "https://shop.example/a" |} ] |}
           eq_refl eq_refl
           {| title := "Round frames"; uri := "https://shop.example/a" |}).
Defined.

Lemma filter_map_subsequence (chunks : list GroundingChunk) :
  Subsequence
    (map chunkOf (map toGroundingUrl (filter hasUriAndTitle chunks))) chunks.
Proof.
  induction chunks as [|chunk chunks IH]; simpl.
  - constructor.
  - destruct (hasUriAndTitle chunk) eqn:Hok.
    + destruct (hasUriAndTitle_webChunk chunk Hok) as [u [t [Hchunk _]]].
      subst chunk. simpl. apply Subsequence_keep. exact IH.
    + apply Subsequence_drop. exact IH.
Qed.

(** X6. The citations of a stylist reply come in the order of the
    response: they are the grounding chunks with some of them deleted, not
    sorted again and not duplicated. *)
Theorem stylist_urls_keep_order (env : Env) (msg : string) (img : option string)
    (history : list ChatMessage) (response : GenerateContentResponse)
    (reply : StylistReply) :
  generateContent env (stylistRequest msg img history) = Fulfilled response ->
  fst (chatWithStylist env msg img history) = Fulfilled reply ->
  Subsequence (map chunkOf (replyUrls reply)) (groundingChunksOf response)
  /\ (length (replyUrls reply) <= length (groundingChunksOf response))%nat.
Proof.
  intros Hresp Hreply.
  rewrite (chatWithStylist_fulfilled _ _ _ _ _ Hresp) in Hreply.
  injection Hreply as Hreply. subst reply. cbn [replyUrls]. split.
  - apply filter_map_subsequence.
  - rewrite length_map. apply filter_length_le.
Qed.

Lemma stylist_urls_keep_order_witness :
  Subsequence
    (map chunkOf [ {| title := "Round frames"; uri := "https://shop.example/a" |} ])
    (groundingChunksOf (Sample.textResponse "Try these."))
  /\ (length [ {| title := "Round frames"; uri := "https://shop.example/a" |} ]
      <= length (groundingChunksOf (Sample.textResponse "Try these.")))%nat.
Proof.
  apply (stylist_urls_keep_order Sample.working "where can I buy these" (Some "AAAA") []
           (Sample.textResponse "Try these.")
           {| replyText := "Try these.";
              replyUrls := [ {| title := "Round frames"; uri := "https://shop.example/a" |} ] |});
    reflexivity.
Defined.

(** X7. [generateEyewearImage] looks at the first part of the first
    candidate only: when that part carries no inline data the call is
    rejected with the message that no image was generated, whatever the
    later parts and the later candidates hold. *)
Theorem image_must_be_first_part (env : Env) (base : option string) (prompt : string)
    (ref : option string) (response : GenerateContentResponse) (candidate : Candidate)
    (laterParts : list ResponsePart) (laterCandidates : list Candidate) :
  generateContent env (eyewearRequest base prompt ref) = Fulfilled response ->
  candidates response = Some (candidate :: laterCandidates) ->
  contentParts candidate = Some (textOnlyPart :: laterParts) ->
  fst (generateEyewearImage env base prompt ref)
    = Rejected "No image generated from the model.".
Proof.
  intros Hresp Hcands Hparts. unfold generateEyewearImage, firstPart.
  rewrite Hresp, Hcands, Hparts. reflexivity.
Qed.

Lemma image_must_be_first_part_witness :
  fst (generateEyewearImage
         (answering
            {| candidates :=
                 Some [ {| contentParts :=
                             Some [ textOnlyPart;
                                    {| inlineData :=
                                         Some {| blobData := "BBBB";
                                                 blobMimeType := "image/png" |} |} ];
                           groundingChunks := None |} ];
               responseText := Some "Here is your image." |})
         (Some "AAAA") "make the frames red" None)
    = Rejected "No image generated from the model.".
Proof.
  apply (image_must_be_first_part _ (Some "AAAA") "make the frames red" None
           {| candidates :=
                Some [ {| contentParts :=
                            Some [ textOnlyPart;
                                   {| inlineData :=
                                        Some {| blobData := "BBBB";
                                                blobMimeType := "image/png" |} |} ];
                          groundingChunks := None |} ];
              responseText := Some "Here is your image." |}
           {| contentParts :=
                Some [ textOnlyPart;
                       {| inlineData :=
                            Some {| blobData := "BBBB"; blobMimeType := "image/png" |} |} ];
              groundingChunks := None |}
           [ {| inlineData := Some {| blobData := "BBBB"; blobMimeType := "image/png" |} |} ]
           []); reflexivity.
Defined.

(** ** Further properties: one submission *)

Lemma sendMessageTry_sent env snap live u text overrideRefImage :
  snd (sendMessageTry env snap live u text overrideRefImage)
    = match intentFor detectIntent (currentRefImageOf snap overrideRefImage) text with
      | EDIT_IMAGE =>
          [eyewearRequest (cleanBase64 u) text
             (whenTruthy (currentRefImageOf snap overrideRefImage) cleanBase64 None)]
      | CHAT =>
          [stylistRequest text
             (whenTruthy (generatedImage snap) cleanBase64 (cleanBase64 u))
             (chatHistory snap)]
      end.
Proof.
  unfold sendMessageTry.
  destruct (intentFor detectIntent _ text).
  - pose proof (generateEyewearImage_sent env (cleanBase64 u) text
      (whenTruthy (currentRefImageOf snap overrideRefImage) cleanBase64 None)) as Hsent.
    destruct (generateEyewearImage env _ text _) as [[b | e] tr]; exact Hsent.
  - pose proof (chatWithStylist_sent env text
      (whenTruthy (generatedImage snap) cleanBase64 (cleanBase64 u)) (chatHistory snap))
      as Hsent.
    destruct (chatWithStylist env text _ _) as [[reply | e] tr]; exact Hsent.
Qed.

Lemma handleSendMessage_sent env snap live text overrideRefImage :
  snd (handleSendMessage env snap live text overrideRefImage)
    = composedRequests snap text overrideRefImage.
Proof.
  unfold handleSendMessage, composedRequests.
  destruct (isEmptySubmission text overrideRefImage); [reflexivity |].
  unfold whenTruthy.
  destruct (userImage snap) as [u|]; [| reflexivity].
  destruct (truthyStr u); [| reflexivity].
  rewrite <- sendMessageTry_sent with (env := env)
    (live := setGenerationState {| isGenerating := true; progress := "Thinking..." |}
       (setInputMessage EmptyString
          (setChatHistory (fun prev => (prev ++ [chatMessage USER text (now env 0)])%list)
             live))).
  destruct (sendMessageTry env snap _ u text overrideRefImage) as [[result live'] sent].
  reflexivity.
Qed.

Lemma composedRequests_length snap text overrideRefImage :
  (length (composedRequests snap text overrideRefImage) <= 1)%nat.
Proof.
  unfold composedRequests, whenTruthy.
  destruct (isEmptySubmission text overrideRefImage); [simpl; lia |].
  destruct (userImage snap) as [u|]; [| simpl; lia].
  destruct (truthyStr u); [| simpl; lia].
  destruct (intentFor detectIntent _ text); simpl; lia.
Qed.

(** X8. A submission sends at most one request to the remote model, be the
    answer a success or a failure (there is no second attempt), and that
    request is fixed by the values the handler captured, the text and the
    reference image of the call: the remote model, the clock and the live
    state have no part in it. *)
Theorem one_request_per_submission (env : Env) (snap live : App) (text : string)
    (overrideRefImage : option string) :
  snd (handleSendMessage env snap live text overrideRefImage)
    = composedRequests snap text overrideRefImage
  /\ (length (snd (handleSendMessage env snap live text overrideRefImage)) <= 1)%nat
  /\ (length (snd (handleSendMessage env snap live text overrideRefImage)) = 1%nat
      <-> isEmptySubmission text overrideRefImage = false /\ truthy (userImage snap) = true).
Proof.
  rewrite handleSendMessage_sent.
  split; [reflexivity |]. split; [apply composedRequests_length |].
  unfold composedRequests, whenTruthy, truthy.
  destruct (isEmptySubmission text overrideRefImage).
  { simpl. split; [discriminate | intros [H _]; discriminate H]. }
  destruct (userImage snap) as [u|].
  - destruct (truthyStr u).
    + destruct (intentFor detectIntent _ text); simpl; split; auto.
    + simpl. split; [discriminate | intros [_ H]; discriminate H].
  - simpl. split; [discriminate | intros [_ H]; discriminate H].
Qed.

Lemma stylistRequest_history msg img h1 h2 :
  stylistRequest msg img h1 = stylistRequest msg img h2.
Proof. reflexivity. Qed.

(** X9. Two submissions of the same text and reference image send the same
    request whenever the three images are the same: the transcript, the
    input box, the answers of the remote model and the time play no part. *)
Theorem request_depends_on_look_only (env1 env2 : Env) (snap1 live1 snap2 live2 : App)
    (text : string) (overrideRefImage : option string) :
  lookState snap1 = lookState snap2 ->
  snd (handleSendMessage env1 snap1 live1 text overrideRefImage)
    = snd (handleSendMessage env2 snap2 live2 text overrideRefImage).
Proof.
  intros Hlook. rewrite !handleSendMessage_sent.
  destruct snap1 as [u1 g1 r1 h1 i1 s1], snap2 as [u2 g2 r2 h2 i2 s2].
  unfold lookState in Hlook. cbn in Hlook. injection Hlook as Hu Hg Hr. subst u2 g2 r2.
  unfold composedRequests, currentRefImageOf. cbn.
  destruct (isEmptySubmission text overrideRefImage); [reflexivity |].
  destruct u1 as [u|]; [| reflexivity]. cbn.
  destruct (truthyStr u); [| reflexivity].
  destruct (intentFor detectIntent _ text); reflexivity.
Qed.

Lemma request_depends_on_look_only_witness :
  snd (handleSendMessage Sample.failing Sample.styled Sample.styled
         "where can I buy these" None)
    = snd (handleSendMessage Sample.working
             (setChatHistory (fun _ => []) (setInputMessage "draft" Sample.styled))
             initialApp "where can I buy these" None).
Proof.
  apply (request_depends_on_look_only Sample.failing Sample.working
           Sample.styled Sample.styled
           (setChatHistory (fun _ => []) (setInputMessage "draft" Sample.styled))
           initialApp "where can I buy these" None).
  reflexivity.
Defined.

(** The transcript when the [try] block settles. *)
Lemma sendMessageTry_history env snap live u text overrideRefImage :
  let '(result, live', _) := sendMessageTry env snap live u text overrideRefImage in
  match result with
  | Fulfilled _ =>
      exists reply, chatHistory live' = (chatHistory live ++ [reply])%list
                    /\ role reply = MODEL /\ timestamp reply = now env 1
                    /\ isError reply = None
  | Rejected _ => chatHistory live' = chatHistory live
  end
  /\ inputMessage live' = inputMessage live
  /\ userImage live' = userImage live.
Proof.
  unfold sendMessageTry.
  destruct (intentFor detectIntent _ text).
  - destruct (generateEyewearImage env _ text _) as [[b | e] tr].
    + split; [| split; reflexivity]. eexists. split; [reflexivity |]. repeat split.
    + repeat split.
  - destruct (chatWithStylist env text _ _) as [[reply | e] tr].
    + split; [| split; reflexivity]. eexists. split; [reflexivity |]. repeat split.
    + repeat split.
Qed.

(** What an accepted submission leaves in the transcript and the input
    box, whichever way it ends. *)
Lemma accepted_submission_history env snap live text overrideRefImage :
  isEmptySubmission text overrideRefImage = false ->
  exists reply,
    chatHistory (fst (handleSendMessage env snap live text overrideRefImage))
      = (chatHistory live ++ [chatMessage USER text (now env 0); reply])%list
    /\ role reply = MODEL /\ timestamp reply = now env 1
    /\ inputMessage (fst (handleSendMessage env snap live text overrideRefImage))
       = EmptyString
    /\ userImage (fst (handleSendMessage env snap live text overrideRefImage))
       = userImage live.
Proof.
  intros Hguard.
  destruct (truthy (userImage snap)) eqn:Hphoto.
  - destruct (truthy_Some _ Hphoto) as [u [Hu Htruthy]].
    rewrite (handleSendMessage_pipeline env snap live text overrideRefImage u
               Hguard Hu Htruthy).
    pose proof (sendMessageTry_history env snap (onEntry env live text) u text
                  overrideRefImage) as Hhist.
    destruct (sendMessageTry env snap (onEntry env live text) u text overrideRefImage)
      as [[result live'] sent].
    destruct Hhist as [Hchat [Hinput Huser]].
    destruct result as [[] | error].
    + destruct Hchat as [reply [Hchat [Hrole [Htime _]]]].
      exists reply. cbn [fst chatHistory inputMessage userImage setGenerationState].
      rewrite Hchat, Hinput, Huser. cbn. rewrite <- app_assoc. repeat split; assumption.
    + exists (errorMessage (now env 1)).
      cbn [fst chatHistory inputMessage userImage setGenerationState setChatHistory].
      rewrite Hchat, Hinput, Huser. cbn. rewrite <- app_assoc. repeat split.
  - rewrite (handleSendMessage_no_photo env snap live text overrideRefImage Hguard Hphoto).
    exists (chatMessage MODEL uploadFirst (now env 1)). cbn.
    rewrite <- app_assoc. repeat split.
Qed.

(** X10. Every accepted submission, whichever way it ends (upload prompt,
    success or failure of either route), appends exactly two turns to the
    live transcript, the USER turn with the raw text and then one MODEL
    turn, and empties the input box. *)
Theorem accepted_submission_appends_pair (env : Env) (snap live : App) (text : string)
    (overrideRefImage : option string) :
  isEmptySubmission text overrideRefImage = false ->
  let after := fst (handleSendMessage env snap live text overrideRefImage) in
  (exists reply,
     appendedTurns (chatHistory live) (chatHistory after)
       = [chatMessage USER text (now env 0); reply]
     /\ role reply = MODEL /\ timestamp reply = now env 1)
  /\ firstn (length (chatHistory live)) (chatHistory after) = chatHistory live
  /\ length (chatHistory after) = (length (chatHistory live) + 2)%nat
  /\ inputMessage after = EmptyString.
Proof.
  intros Hguard after. subst after.
  destruct (accepted_submission_history env snap live text overrideRefImage Hguard)
    as [reply [Hchat [Hrole [Htime [Hinput _]]]]].
  rewrite Hchat. split; [| split; [| split]].
  - exists reply. rewrite appendedTurns_app. repeat split; assumption.
  - rewrite firstn_app, Nat.sub_diag, firstn_all. simpl. apply app_nil_r.
  - rewrite length_app. reflexivity.
  - exact Hinput.
Qed.

Lemma accepted_submission_appends_pair_witness :
  let after := fst (handleSendMessage Sample.failing Sample.styled Sample.styled
                      "make the frames red" None) in
  (exists reply,
     appendedTurns (chatHistory Sample.styled) (chatHistory after)
       = [chatMessage USER "make the frames red" (now Sample.failing 0); reply]
     /\ role reply = MODEL /\ timestamp reply = now Sample.failing 1)
  /\ firstn (length (chatHistory Sample.styled)) (chatHistory after)
     = chatHistory Sample.styled
  /\ length (chatHistory after) = (length (chatHistory Sample.styled) + 2)%nat
  /\ inputMessage after = EmptyString.
Proof.
  apply (accepted_submission_appends_pair Sample.failing Sample.styled Sample.styled
           "make the frames red" None).
  reflexivity.
Defined.

Lemma isEmptySubmission_iff (text : string) (overrideRefImage : option string) :
  isEmptySubmission text overrideRefImage = true
  <-> whitespaceOnly text = true /\ truthy overrideRefImage = false.
Proof.
  unfold isEmptySubmission.
  rewrite andb_true_iff, !negb_true_iff, truthyStr_false, trim_empty. reflexivity.
Qed.

(** X11. A submission is dropped without a trace exactly when the text is
    empty or white space only and no reference image comes with the call:
    in every other case the state changes. *)
Theorem dropped_iff_blank (env : Env) (snap live : App) (text : string)
    (overrideRefImage : option string) :
  handleSendMessage env snap live text overrideRefImage = (live, [])
  <-> whitespaceOnly text = true /\ truthy overrideRefImage = false.
Proof.
  rewrite <- isEmptySubmission_iff. split.
  - intros Hnoop. destruct (isEmptySubmission text overrideRefImage) eqn:Hguard;
      [reflexivity |].
    destruct (accepted_submission_history env snap live text overrideRefImage Hguard)
      as [reply [Hchat _]].
    rewrite Hnoop in Hchat. cbn [fst] in Hchat.
    apply (f_equal (@length ChatMessage)) in Hchat.
    rewrite length_app in Hchat. simpl in Hchat. lia.
  - intros Hguard. unfold handleSendMessage. rewrite Hguard. reflexivity.
Qed.

(** ** Further properties: what the events write *)

Lemma handleSendMessage_history_grows env snap live text overrideRefImage :
  exists suffix,
    chatHistory (fst (handleSendMessage env snap live text overrideRefImage))
      = (chatHistory live ++ suffix)%list.
Proof.
  destruct (isEmptySubmission text overrideRefImage) eqn:Hguard.
  - exists []. unfold handleSendMessage. rewrite Hguard. simpl. symmetry. apply app_nil_r.
  - destruct (accepted_submission_history env snap live text overrideRefImage Hguard)
      as [reply [Hchat _]].
    eexists. exact Hchat.
Qed.

Lemma handleSendMessage_userImage env snap live text overrideRefImage :
  userImage (fst (handleSendMessage env snap live text overrideRefImage)) = userImage live.
Proof.
  destruct (isEmptySubmission text overrideRefImage) eqn:Hguard.
  - unfold handleSendMessage. rewrite Hguard. reflexivity.
  - destruct (accepted_submission_history env snap live text overrideRefImage Hguard)
      as [reply [_ [_ [_ [_ Huser]]]]].
    exact Huser.
Qed.

(** X12. The transcript is append-only under every event but one: a photo
    upload replaces it by the greeting; every other event leaves the turns
    already there in place and in order, adding turns after them or none. *)
Theorem transcript_grows_or_restarts (env : Env) (st : App) (ev : Event) :
  match ev with
  | UserImageUpload _ =>
      chatHistory (fst (step env st ev)) = [chatMessage MODEL greeting (now env 0)]
  | _ =>
      exists suffix, chatHistory (fst (step env st ev)) = (chatHistory st ++ suffix)%list
  end.
Proof.
  destruct ev; cbn [step fst]; try reflexivity;
    try (unfold handleReferenceImageUpload, handleStyleSelect, handleShopLook;
         apply handleSendMessage_history_grows with (live := st));
    try (exists []; cbn; symmetry; apply app_nil_r).
  unfold handleReferenceImageUpload.
  apply (handleSendMessage_history_grows env st (setReferenceImage (Some base64) st)).
Qed.

(** X13. The base photo is written by the photo upload and by its remove
    button only: no submission, whatever its route and outcome, and no
    reference upload changes [userImage]. *)
Theorem base_photo_written_by_upload_only (env : Env) (st : App) (ev : Event) :
  userImage (fst (step env st ev))
    = match ev with
      | UserImageUpload base64 => Some base64
      | RemoveUserImage => None
      | _ => userImage st
      end.
Proof.
  destruct ev; cbn [step fst]; try reflexivity;
    unfold handleReferenceImageUpload, handleStyleSelect, handleShopLook;
    rewrite handleSendMessage_userImage; reflexivity.
Qed.

Lemma handleSendMessage_generationState env snap live text overrideRefImage :
  generationState (fst (handleSendMessage env snap live text overrideRefImage))
    = {| isGenerating := false; progress := EmptyString |}
  \/ generationState (fst (handleSendMessage env snap live text overrideRefImage))
     = generationState live.
Proof.
  unfold handleSendMessage.
  destruct (isEmptySubmission text overrideRefImage); [right; reflexivity |].
  unfold whenTruthy.
  destruct (userImage snap) as [u|]; [| right; reflexivity].
  destruct (truthyStr u); [| right; reflexivity].
  destruct (sendMessageTry env snap _ u text overrideRefImage) as [[result live'] sent].
  left. reflexivity.
Qed.

Lemma step_idle env st ev :
  generationState st = {| isGenerating := false; progress := EmptyString |} ->
  generationState (fst (step env st ev))
    = {| isGenerating := false; progress := EmptyString |}.
Proof.
  intros Hidle.
  destruct ev; cbn [step fst]; try exact Hidle.
  - unfold handleReferenceImageUpload.
    destruct (handleSendMessage_generationState env st
                (setReferenceImage (Some base64) st) referenceUploadText (Some base64))
      as [H | H]; rewrite H; [reflexivity | exact Hidle].
  - unfold handleStyleSelect.
    destruct (handleSendMessage_generationState env st st
                ("Can I try on " ++ label style ++ " glasses?") None)
      as [H | H]; rewrite H; [reflexivity | exact Hidle].
  - destruct (handleSendMessage_generationState env st st (inputMessage st) None)
      as [H | H]; rewrite H; [reflexivity | exact Hidle].
  - unfold handleShopLook.
    destruct (handleSendMessage_generationState env st st shopLookText None)
      as [H | H]; rewrite H; [reflexivity | exact Hidle].
Qed.

(** X14. Between events the progress indicator is idle: after any
    sequence of events, with any answers of the remote model, failures
    included, [isGenerating] is false again and the input is enabled. *)
Theorem session_ends_idle (events : list (Env * Event)) (st : App) :
  generationState st = {| isGenerating := false; progress := EmptyString |} ->
  generationState (fst (run st events))
    = {| isGenerating := false; progress := EmptyString |}
  /\ inputDisabled (fst (run st events)) = false.
Proof.
  revert st. induction events as [|[env ev] events IH]; intros st Hidle.
  - simpl. unfold inputDisabled. rewrite Hidle. split; reflexivity.
  - simpl. pose proof (step_idle env st ev Hidle) as Hstep.
    destruct (step env st ev) as [st1 sent]. simpl in Hstep.
    specialize (IH st1 Hstep).
    destruct (run st1 events) as [st2 sents]. exact IH.
Qed.

Lemma session_ends_idle_witness :
  generationState
    (fst (run initialApp
            (Sample.referenceThenHello ++ [(Sample.failing, ShopLook)])))
    = {| isGenerating := false; progress := EmptyString |}
  /\ inputDisabled
       (fst (run initialApp
               (Sample.referenceThenHello ++ [(Sample.failing, ShopLook)]))) = false.
Proof.
  apply (session_ends_idle (Sample.referenceThenHello ++ [(Sample.failing, ShopLook)])
           initialApp).
  reflexivity.
Defined.

(** ** Further properties: the CHAT route *)

Lemma sendMessageTry_chat_look env snap live u text overrideRefImage :
  intentFor detectIntent (currentRefImageOf snap overrideRefImage) text = CHAT ->
  lookState (snd (fst (sendMessageTry env snap live u text overrideRefImage)))
    = lookState live.
Proof.
  intros Hintent. rewrite (sendMessageTry_chat _ _ _ _ _ _ Hintent). cbv zeta.
  destruct (chatWithStylist env text _ _) as [[reply | e] tr]; reflexivity.
Qed.

(** X15. A CHAT turn is read-only on the look: whether the stylist call
    succeeds or fails, the base photo, the current look and the reference
    image are the ones before; its one request goes out with the search
    tool switched on and carries the current look if there is one, the base
    photo otherwise. *)
Theorem chat_turn_keeps_look (env : Env) (snap live : App) (text : string)
    (overrideRefImage : option string) (u : string) :
  isEmptySubmission text overrideRefImage = false ->
  userImage snap = Some u -> truthyStr u = true ->
  intentFor detectIntent (currentRefImageOf snap overrideRefImage) text = CHAT ->
  let out := handleSendMessage env snap live text overrideRefImage in
  let context := whenTruthy (generatedImage snap) cleanBase64 (cleanBase64 u) in
  lookState (fst out) = lookState live
  /\ snd out = [stylistRequest text context (chatHistory snap)]
  /\ tools (config (stylistRequest text context (chatHistory snap))) = [GoogleSearch]
  /\ parts (stylistRequest text context (chatHistory snap))
     = (if truthy context
        then [InlinePart context "image/jpeg"; TextPart lookCaption; TextPart text]
        else [TextPart text]).
Proof.
  intros Hguard Hu Htruthy Hintent out context. subst out context.
  split; [| split; [| split]].
  - rewrite (handleSendMessage_pipeline env snap live text overrideRefImage u
               Hguard Hu Htruthy).
    pose proof (sendMessageTry_chat_look env snap (onEntry env live text) u text
                  overrideRefImage Hintent) as Hlook.
    destruct (sendMessageTry env snap (onEntry env live text) u text overrideRefImage)
      as [[result live'] sent].
    cbn [fst snd] in Hlook |- *.
    rewrite lookState_setGenerationState.
    destruct result; [| rewrite lookState_setChatHistory]; exact Hlook.
  - rewrite handleSendMessage_sent. unfold composedRequests.
    rewrite Hguard, Hu, (whenTruthy_Some u _ _ Htruthy), Hintent. reflexivity.
  - reflexivity.
  - unfold stylistRequest. cbn [parts].
    destruct (truthy (whenTruthy (generatedImage snap) cleanBase64 (cleanBase64 u)));
      reflexivity.
Qed.

Lemma chat_turn_keeps_look_witness :
  let out := handleSendMessage Sample.working Sample.styled Sample.styled
               "where can I buy these" None in
  let context := whenTruthy (generatedImage Sample.styled) cleanBase64
                   (cleanBase64 Sample.basePhoto) in
  lookState (fst out) = lookState Sample.styled
  /\ snd out = [stylistRequest "where can I buy these" context (chatHistory Sample.styled)]
  /\ tools (config (stylistRequest "where can I buy these" context
                      (chatHistory Sample.styled))) = [GoogleSearch]
  /\ parts (stylistRequest "where can I buy these" context (chatHistory Sample.styled))
     = (if truthy context
        then [InlinePart context "image/jpeg"; TextPart lookCaption;
              TextPart "where can I buy these"]
        else [TextPart "where can I buy these"]).
Proof.
  apply (chat_turn_keeps_look Sample.working Sample.styled Sample.styled
           "where can I buy these" None Sample.basePhoto); reflexivity.
Defined.

(** X16. When the stylist call of a CHAT turn succeeds, the MODEL turn
    appended carries the text of the response (the canned sentence when
    that is empty), no error flag, and the complete grounding chunks of the
    response in their order; at most the first five of them are rendered. *)
Theorem chat_success_turn (env : Env) (snap live : App) (text : string)
    (overrideRefImage : option string) (u : string)
    (response : GenerateContentResponse) :
  isEmptySubmission text overrideRefImage = false ->
  userImage snap = Some u -> truthyStr u = true ->
  intentFor detectIntent (currentRefImageOf snap overrideRefImage) text = CHAT ->
  generateContent env
    (stylistRequest text (whenTruthy (generatedImage snap) cleanBase64 (cleanBase64 u))
       (chatHistory snap)) = Fulfilled response ->
  let after := fst (handleSendMessage env snap live text overrideRefImage) in
  let urls := map toGroundingUrl (filter hasUriAndTitle (groundingChunksOf response)) in
  let reply :=
    {| role := MODEL;
       text := orDefault (responseText response) "I couldn't generate a text response.";
       timestamp := now env 1;
       isError := None;
       groundingUrls := Some urls |} in
  appendedTurns (chatHistory live) (chatHistory after)
    = [chatMessage USER text (now env 0); reply]
  /\ shownGroundingUrls reply = firstn 5 urls
  /\ (length (shownGroundingUrls reply) <= 5)%nat.
Proof.
  intros Hguard Hu Htruthy Hintent Hresp after urls reply. subst after urls reply.
  split; [| split].
  - rewrite (handleSendMessage_pipeline env snap live text overrideRefImage u
               Hguard Hu Htruthy).
    rewrite (sendMessageTry_chat _ _ _ _ _ _ Hintent). cbv zeta.
    unfold chatWithStylist. rewrite Hresp.
    cbn [fst chatHistory setGenerationState setChatHistory setInputMessage onEntry
         replyText replyUrls].
    rewrite <- app_assoc. apply appendedTurns_app.
  - unfold shownGroundingUrls. cbn [groundingUrls].
    destruct (map toGroundingUrl (filter hasUriAndTitle (groundingChunksOf response)));
      reflexivity.
  - unfold shownGroundingUrls. cbn [groundingUrls].
    destruct (0 <? length _)%nat; [apply firstn_le_length | simpl; lia].
Qed.

Lemma chat_success_turn_witness :
  let after := fst (handleSendMessage Sample.working Sample.styled Sample.styled
                      "where can I buy these" None) in
  let urls := map toGroundingUrl
                (filter hasUriAndTitle
                   (groundingChunksOf (Sample.textResponse "Try these."))) in
  let reply :=
    {| role := MODEL;
       text := orDefault (responseText (Sample.textResponse "Try these."))
                 "I couldn't generate a text response.";
       timestamp := now Sample.working 1;
       isError := None;
       groundingUrls := Some urls |} in
  appendedTurns (chatHistory Sample.styled) (chatHistory after)
    = [chatMessage USER "where can I buy these" (now Sample.working 0); reply]
  /\ shownGroundingUrls reply = firstn 5 urls
  /\ (length (shownGroundingUrls reply) <= 5)%nat.
Proof.
  apply (chat_success_turn Sample.working Sample.styled Sample.styled
           "where can I buy these" None Sample.basePhoto
           (Sample.textResponse "Try these.")); reflexivity.
Defined.

(** ** Further properties: data URLs *)

(** X17. [cleanBase64] gives back the payload of a data URL: for a header
    and a payload without a comma, the second piece of header, comma and
    payload is the payload. *)
Theorem cleanBase64_round_trip (header payload : string) :
  lacks "," header = true -> lacks "," payload = true ->
  cleanBase64 (header ++ "," ++ payload) = Some payload.
Proof.
  intros Hheader Hpayload. unfold cleanBase64.
  change (header ++ "," ++ payload) with (header ++ String "," payload).
  rewrite (split_at_separator "," header payload Hheader).
  rewrite (split_lacks "," payload Hpayload). reflexivity.
Qed.

Lemma cleanBase64_round_trip_witness :
  cleanBase64 ("data:image/jpeg;base64" ++ "," ++ "AAAA") = Some "AAAA".
Proof.
  apply (cleanBase64_round_trip "data:image/jpeg;base64" "AAAA"); reflexivity.
Defined.

(** X18. [cleanBase64] has no payload to give ([undefined]) exactly for
    the strings without a comma. *)
Theorem cleanBase64_none_iff (dataUrl : string) :
  cleanBase64 dataUrl = None <-> lacks "," dataUrl = true.
Proof.
  split.
  - intros Hnone. destruct (lacks "," dataUrl) eqn:Hlacks; [reflexivity |].
    destruct (split_two_pieces "," dataUrl Hlacks) as [a [b [rest Hsplit]]].
    unfold cleanBase64 in Hnone. rewrite Hsplit in Hnone. discriminate Hnone.
  - intros Hlacks. unfold cleanBase64. rewrite (split_lacks "," dataUrl Hlacks).
    reflexivity.
Qed.

(** ** Further properties: how turns compose *)

Lemma currentRefImageOf_stored (st : App) :
  currentRefImageOf st None = referenceImage st.
Proof. reflexivity. Qed.

Lemma composedRequests_edit (snap : App) (text : string) (u : string) :
  isEmptySubmission text None = false ->
  userImage snap = Some u -> truthyStr u = true ->
  truthy (referenceImage snap) = false ->
  detectIntent text = EDIT_IMAGE ->
  composedRequests snap text None = [eyewearRequest (cleanBase64 u) text None].
Proof.
  intros Hguard Hu Htruthy Href Hintent. unfold composedRequests.
  rewrite Hguard, Hu, (whenTruthy_Some u _ _ Htruthy), currentRefImageOf_stored.
  unfold intentFor. rewrite Href, Hintent, (whenTruthy_falsy _ _ _ Href). reflexivity.
Qed.

Lemma composedRequests_chat (snap : App) (text : string) (u : string) :
  isEmptySubmission text None = false ->
  userImage snap = Some u -> truthyStr u = true ->
  truthy (referenceImage snap) = false ->
  detectIntent text = CHAT ->
  composedRequests snap text None
    = [stylistRequest text (whenTruthy (generatedImage snap) cleanBase64 (cleanBase64 u))
         (chatHistory snap)].
Proof.
  intros Hguard Hu Htruthy Href Hintent. unfold composedRequests.
  rewrite Hguard, Hu, (whenTruthy_Some u _ _ Htruthy), currentRefImageOf_stored.
  unfold intentFor. rewrite Href, Hintent. reflexivity.
Qed.

Lemma eyewearRequest_plain (base : option string) (text : string) (ref : option string) :
  truthy ref = false ->
  parts (eyewearRequest base text ref)
    = [InlinePart base "image/jpeg"; TextPart (plainPrompt text)].
Proof. intros Href. unfold eyewearRequest. rewrite Href. reflexivity. Qed.

(** The state a successful edit without reference image leaves. *)
Lemma edit_success_state env st text u bytes :
  isEmptySubmission text None = false ->
  userImage st = Some u -> truthyStr u = true ->
  truthy (referenceImage st) = false ->
  detectIntent text = EDIT_IMAGE ->
  fst (generateEyewearImage env (cleanBase64 u) text None) = Fulfilled bytes ->
  let after := fst (handleSendMessage env st st text None) in
  userImage after = Some u
  /\ generatedImage after = Some ("data:image/jpeg;base64," ++ bytes)
  /\ referenceImage after = referenceImage st.
Proof.
  intros Hguard Hu Htruthy Href Hintent Hok after. subst after.
  assert (Hroute : intentFor detectIntent (currentRefImageOf st None) text = EDIT_IMAGE).
  { rewrite currentRefImageOf_stored. unfold intentFor. rewrite Href. exact Hintent. }
  assert (Hraw : whenTruthy (currentRefImageOf st None) cleanBase64 None = None).
  { rewrite currentRefImageOf_stored. apply whenTruthy_falsy. exact Href. }
  rewrite (handleSendMessage_pipeline env st st text None u Hguard Hu Htruthy).
  rewrite <- Hraw in Hok.
  rewrite (sendMessageTry_edit_fulfilled _ _ _ _ _ _ _ Hroute Hok).
  cbn. rewrite Hu. repeat split.
Qed.

(** X19. The look an edit produced is the look the stylist sees next: after
    a successful EDIT_IMAGE turn that returned a non-empty payload without
    a comma, the request of the following CHAT turn starts with exactly
    that payload, then the caption, then the raw text. *)
Theorem edit_then_chat_sends_new_look (env1 env2 : Env) (st : App)
    (text1 text2 u bytes : string) :
  userImage st = Some u -> truthyStr u = true ->
  truthy (referenceImage st) = false ->
  isEmptySubmission text1 None = false -> detectIntent text1 = EDIT_IMAGE ->
  fst (generateEyewearImage env1 (cleanBase64 u) text1 None) = Fulfilled bytes ->
  truthyStr bytes = true -> lacks "," bytes = true ->
  isEmptySubmission text2 None = false -> detectIntent text2 = CHAT ->
  let st1 := fst (handleSendMessage env1 st st text1 None) in
  snd (handleSendMessage env2 st1 st1 text2 None)
    = [stylistRequest text2 (Some bytes) (chatHistory st1)]
  /\ parts (stylistRequest text2 (Some bytes) (chatHistory st1))
     = [InlinePart (Some bytes) "image/jpeg"; TextPart lookCaption; TextPart text2].
Proof.
  intros Hu Htruthy Href Hguard1 Hintent1 Hok Hbytes Hcomma Hguard2 Hintent2 st1.
  destruct (edit_success_state env1 st text1 u bytes Hguard1 Hu Htruthy Href Hintent1 Hok)
    as [Hu1 [Hg1 Hr1]].
  fold st1 in Hu1, Hg1, Hr1.
  assert (Href1 : truthy (referenceImage st1) = false) by (rewrite Hr1; exact Href).
  split.
  - rewrite handleSendMessage_sent.
    rewrite (composedRequests_chat st1 text2 u Hguard2 Hu1 Htruthy Href1 Hintent2).
    rewrite Hg1, whenTruthy_Some by reflexivity.
    rewrite cleanBase64_stored, (split_lacks "," bytes Hcomma). reflexivity.
  - unfold stylistRequest. cbn [parts truthy]. rewrite Hbytes. reflexivity.
Qed.

Lemma edit_then_chat_sends_new_look_witness :
  let st1 := fst (handleSendMessage Sample.working Sample.fresh Sample.fresh
                    "make the frames red" None) in
  snd (handleSendMessage Sample.failing st1 st1 "where can I buy these" None)
    = [stylistRequest "where can I buy these" (Some "BBBB") (chatHistory st1)]
  /\ parts (stylistRequest "where can I buy these" (Some "BBBB") (chatHistory st1))
     = [InlinePart (Some "BBBB") "image/jpeg"; TextPart lookCaption;
        TextPart "where can I buy these"].
Proof.
  apply (edit_then_chat_sends_new_look Sample.working Sample.failing Sample.fresh
           "make the frames red" "where can I buy these" Sample.basePhoto "BBBB");
    reflexivity.
Defined.

(** X20. A new photo replaces the look for good: after a photo upload,
    whatever look was there before, the one request of the next accepted
    submission carries the payload of the new photo as its first image, on
    either route. *)
Theorem upload_then_submission_uses_new_photo (env0 env : Env) (st : App)
    (base64 text : string) (overrideRefImage : option string) :
  truthy (cleanBase64 base64) = true ->
  isEmptySubmission text overrideRefImage = false ->
  let st1 := handleUserImageUpload env0 st base64 in
  generatedImage st1 = None
  /\ exists request,
       snd (handleSendMessage env st1 st1 text overrideRefImage) = [request]
       /\ hd_error (parts request) = Some (InlinePart (cleanBase64 base64) "image/jpeg").
Proof.
  intros Hpayload Hguard st1. split; [reflexivity |].
  assert (Htruthy : truthyStr base64 = true).
  { destruct base64; [discriminate Hpayload | reflexivity]. }
  rewrite handleSendMessage_sent. unfold composedRequests. rewrite Hguard.
  change (userImage st1) with (Some base64).
  rewrite (whenTruthy_Some base64 _ _ Htruthy).
  destruct (intentFor detectIntent (currentRefImageOf st1 overrideRefImage) text).
  - eexists. split; [reflexivity |]. unfold eyewearRequest.
    destruct (truthy (whenTruthy _ cleanBase64 None)); reflexivity.
  - eexists. split; [reflexivity |].
    change (generatedImage st1) with (@None string). cbn [whenTruthy].
    unfold stylistRequest. rewrite Hpayload. reflexivity.
Qed.

Lemma upload_then_submission_uses_new_photo_witness :
  let st1 := handleUserImageUpload Sample.working Sample.styled
               "data:image/jpeg;base64,CCCC" in
  generatedImage st1 = None
  /\ exists request,
       snd (handleSendMessage Sample.working st1 st1 "where can I buy these" None)
         = [request]
       /\ hd_error (parts request)
          = Some (InlinePart (cleanBase64 "data:image/jpeg;base64,CCCC") "image/jpeg").
Proof.
  apply (upload_then_submission_uses_new_photo Sample.working Sample.working Sample.styled
           "data:image/jpeg;base64,CCCC" "where can I buy these" None); reflexivity.
Defined.

(** ** Further properties: the buttons *)

Lemma preset_sentences (style : StylistOption) :
  In style PRESET_STYLES ->
  isEmptySubmission (styleSelectText style) None = false
  /\ detectIntent (styleSelectText style) = EDIT_IMAGE.
Proof.
  unfold PRESET_STYLES. simpl.
  intros [H | [H | [H | [H | [H | []]]]]]; subst style; split; reflexivity.
Qed.

(** X21. Every preset of the quick try-on panel starts an EDIT_IMAGE turn
    when there is a base photo and no stored reference image; the request
    carries the base photo and the sentence built from the label of the
    preset, in the wording without reference; the [prompt] field of the
    preset is not sent. *)
Theorem preset_styles_edit (env : Env) (st : App) (style : StylistOption) (u : string) :
  In style PRESET_STYLES ->
  userImage st = Some u -> truthyStr u = true ->
  truthy (referenceImage st) = false ->
  snd (handleStyleSelect env st style)
    = [eyewearRequest (cleanBase64 u) (styleSelectText style) None]
  /\ parts (eyewearRequest (cleanBase64 u) (styleSelectText style) None)
     = [InlinePart (cleanBase64 u) "image/jpeg";
        TextPart ("Edit the image to: Can I try on " ++ label style
                  ++ " glasses?. Ensure photorealistic results, correct lighting, and natural fit on the face. High resolution.")].
Proof.
  intros Hin Hu Htruthy Href.
  destruct (preset_sentences style Hin) as [Hguard Hintent].
  split.
  - unfold handleStyleSelect.
    change ("Can I try on " ++ label style ++ " glasses?") with (styleSelectText style).
    rewrite handleSendMessage_sent.
    apply (composedRequests_edit st (styleSelectText style) u Hguard Hu Htruthy Href Hintent).
  - unfold PRESET_STYLES in Hin. simpl in Hin.
    destruct Hin as [H | [H | [H | [H | [H | []]]]]]; subst style; reflexivity.
Qed.

Lemma preset_styles_edit_witness :
  snd (handleStyleSelect Sample.working Sample.fresh
         {| id := "cat-eye"; label := "Cat Eye"; icon := "😺";
            prompt := "wear vintage red cat-eye glasses" |})
    = [eyewearRequest (cleanBase64 Sample.basePhoto)
         (styleSelectText {| id := "cat-eye"; label := "Cat Eye"; icon := "😺";
                             prompt := "wear vintage red cat-eye glasses" |}) None]
  /\ parts (eyewearRequest (cleanBase64 Sample.basePhoto)
              (styleSelectText {| id := "cat-eye"; label := "Cat Eye"; icon := "😺";
                                  prompt := "wear vintage red cat-eye glasses" |}) None)
     = [InlinePart (cleanBase64 Sample.basePhoto) "image/jpeg";
        TextPart ("Edit the image to: Can I try on "
                  ++ label {| id := "cat-eye"; label := "Cat Eye"; icon := "😺";
                              prompt := "wear vintage red cat-eye glasses" |}
                  ++ " glasses?. Ensure photorealistic results, correct lighting, and natural fit on the face. High resolution.")].
Proof.
  apply (preset_styles_edit Sample.working Sample.fresh
           {| id := "cat-eye"; label := "Cat Eye"; icon := "😺";
              prompt := "wear vintage red cat-eye glasses" |} Sample.basePhoto).
  - simpl; tauto.
  - reflexivity.
  - reflexivity.
  - reflexivity.
Defined.

(** X22. The shop button asks the stylist about the current look as long
    as no reference image is stored; with a stored reference image the same
    button sends an image edit request with the shopping sentence as its
    instruction. *)
Theorem shop_look_request (env : Env) (st : App) (u : string) :
  userImage st = Some u -> truthyStr u = true ->
  snd (handleShopLook env st)
    = if truthy (referenceImage st)
      then [eyewearRequest (cleanBase64 u) shopLookText
              (whenTruthy (referenceImage st) cleanBase64 None)]
      else [stylistRequest shopLookText
              (whenTruthy (generatedImage st) cleanBase64 (cleanBase64 u))
              (chatHistory st)].
Proof.
  intros Hu Htruthy. unfold handleShopLook. rewrite handleSendMessage_sent.
  assert (Hguard : isEmptySubmission shopLookText None = false) by reflexivity.
  destruct (truthy (referenceImage st)) eqn:Href.
  - unfold composedRequests.
    rewrite Hguard, Hu, (whenTruthy_Some u _ _ Htruthy), currentRefImageOf_stored.
    unfold intentFor. rewrite Href. reflexivity.
  - apply (composedRequests_chat st shopLookText u Hguard Hu Htruthy Href).
    reflexivity.
Qed.

Lemma shop_look_request_witness :
  snd (handleShopLook Sample.working
         (setReferenceImage (Some Sample.glassesPhoto) Sample.styled))
    = if truthy (referenceImage (setReferenceImage (Some Sample.glassesPhoto) Sample.styled))
      then [eyewearRequest (cleanBase64 Sample.basePhoto) shopLookText
              (whenTruthy
                 (referenceImage (setReferenceImage (Some Sample.glassesPhoto) Sample.styled))
                 cleanBase64 None)]
      else [stylistRequest shopLookText
              (whenTruthy
                 (generatedImage (setReferenceImage (Some Sample.glassesPhoto) Sample.styled))
                 cleanBase64 (cleanBase64 Sample.basePhoto))
              (chatHistory (setReferenceImage (Some Sample.glassesPhoto) Sample.styled))].
Proof.
  apply (shop_look_request Sample.working
           (setReferenceImage (Some Sample.glassesPhoto) Sample.styled) Sample.basePhoto);
    reflexivity.
Defined.

(** X23. A reference image whose data URL has no payload (no comma, or
    nothing after it) still forces the EDIT_IMAGE route and the reply that
    acknowledges the reference picture, but the request goes out without a
    second image and in the wording without reference. *)
Theorem reference_without_payload (env : Env) (snap live : App) (text : string)
    (overrideRefImage : option string) (u bytes : string) :
  isEmptySubmission text overrideRefImage = false ->
  userImage snap = Some u -> truthyStr u = true ->
  truthy (currentRefImageOf snap overrideRefImage) = true ->
  truthy (whenTruthy (currentRefImageOf snap overrideRefImage) cleanBase64 None) = false ->
  fst (generateEyewearImage env (cleanBase64 u) text
         (whenTruthy (currentRefImageOf snap overrideRefImage) cleanBase64 None))
    = Fulfilled bytes ->
  let out := handleSendMessage env snap live text overrideRefImage in
  (exists request,
     snd out = [request]
     /\ parts request = [InlinePart (cleanBase64 u) "image/jpeg"; TextPart (plainPrompt text)])
  /\ appendedTurns (chatHistory live) (chatHistory (fst out))
     = [chatMessage USER text (now env 0); chatMessage MODEL referenceAck (now env 1)].
Proof.
  intros Hguard Hu Htruthy Href Hraw Hok out. subst out.
  assert (Hintent :
    intentFor detectIntent (currentRefImageOf snap overrideRefImage) text = EDIT_IMAGE).
  { unfold intentFor. rewrite Href. reflexivity. }
  split.
  - rewrite handleSendMessage_sent. unfold composedRequests.
    rewrite Hguard, Hu, (whenTruthy_Some u _ _ Htruthy), Hintent.
    eexists. split; [reflexivity |]. apply eyewearRequest_plain. exact Hraw.
  - rewrite (handleSendMessage_pipeline env snap live text overrideRefImage u
               Hguard Hu Htruthy).
    rewrite (sendMessageTry_edit_fulfilled _ _ _ _ _ _ _ Hintent Hok).
    rewrite Href.
    cbn [fst chatHistory setGenerationState setChatHistory setGeneratedImage
         setInputMessage onEntry].
    rewrite <- app_assoc. apply appendedTurns_app.
Qed.

Lemma reference_without_payload_witness :
  let out := handleSendMessage Sample.working Sample.fresh Sample.fresh
               referenceUploadText (Some "data:,") in
  (exists request,
     snd out = [request]
     /\ parts request = [InlinePart (cleanBase64 Sample.basePhoto) "image/jpeg";
                         TextPart (plainPrompt referenceUploadText)])
  /\ appendedTurns (chatHistory Sample.fresh) (chatHistory (fst out))
     = [chatMessage USER referenceUploadText (now Sample.working 0);
        chatMessage MODEL referenceAck (now Sample.working 1)].
Proof.
  apply (reference_without_payload Sample.working Sample.fresh Sample.fresh
           referenceUploadText (Some "data:,") Sample.basePhoto "BBBB"); reflexivity.
Defined.

(** X24. When the send button is enabled, the input box holds a character
    that is not white space and no pipeline is in flight; a click then,
    like the Enter key without Shift, is an accepted submission of the
    input box: a USER turn with its text is appended, followed by one MODEL
    turn, and the box is emptied. *)
Theorem send_button_enabled (env : Env) (st : App) :
  sendDisabled st = false ->
  whitespaceOnly (inputMessage st) = false
  /\ isGenerating (generationState st) = false
  /\ handleKeyDown env st "Enter" false = step env st Send
  /\ inputMessage (fst (step env st Send)) = EmptyString
  /\ exists reply,
       chatHistory (fst (step env st Send))
         = (chatHistory st ++ [chatMessage USER (inputMessage st) (now env 0); reply])%list
       /\ role reply = MODEL.
Proof.
  unfold sendDisabled. intros Henabled.
  apply orb_false_iff in Henabled. destruct Henabled as [Htext Hidle].
  apply negb_false_iff in Htext.
  assert (Hblank : whitespaceOnly (inputMessage st) = false).
  { destruct (whitespaceOnly (inputMessage st)) eqn:Hws; [| reflexivity].
    apply trim_empty in Hws. rewrite Hws in Htext. discriminate Htext. }
  assert (Hguard : isEmptySubmission (inputMessage st) None = false).
  { unfold isEmptySubmission. rewrite Htext. reflexivity. }
  destruct (accepted_submission_history env st st (inputMessage st) None Hguard)
    as [reply [Hchat [Hrole [_ [Hinput _]]]]].
  split; [exact Hblank |]. split; [exact Hidle |]. split; [reflexivity |].
  split; [exact Hinput |]. exists reply. split; assumption.
Qed.

Lemma send_button_enabled_witness :
  whitespaceOnly (inputMessage (setInputMessage " make the frames red " Sample.fresh))
    = false
  /\ isGenerating
       (generationState (setInputMessage " make the frames red " Sample.fresh)) = false
  /\ handleKeyDown Sample.working (setInputMessage " make the frames red " Sample.fresh)
       "Enter" false
     = step Sample.working (setInputMessage " make the frames red " Sample.fresh) Send
  /\ inputMessage
       (fst (step Sample.working (setInputMessage " make the frames red " Sample.fresh)
               Send)) = EmptyString
  /\ exists reply,
       chatHistory
         (fst (step Sample.working (setInputMessage " make the frames red " Sample.fresh)
                 Send))
         = (chatHistory (setInputMessage " make the frames red " Sample.fresh)
            ++ [chatMessage USER
                  (inputMessage (setInputMessage " make the frames red " Sample.fresh))
                  (now Sample.working 0); reply])%list
       /\ role reply = MODEL.
Proof.
  apply (send_button_enabled Sample.working
           (setInputMessage " make the frames red " Sample.fresh)).
  reflexivity.
Defined.

(** ** Further properties: the reference picture *)

(** X25. A reference upload stores the picture and, with a base photo,
    sends one image request built with the new picture: the base photo
    first, the new reference second, then the instruction in the wording
    with reference.  A reference image stored before is replaced and plays
    no part in the request. *)
Theorem reference_upload_turn (env : Env) (st : App) (base64 u : string) :
  userImage st = Some u -> truthyStr u = true ->
  truthy (cleanBase64 base64) = true ->
  let out := handleReferenceImageUpload env st base64 in
  referenceImage (fst out) = Some base64
  /\ snd out = [eyewearRequest (cleanBase64 u) referenceUploadText (cleanBase64 base64)]
  /\ parts (eyewearRequest (cleanBase64 u) referenceUploadText (cleanBase64 base64))
     = [InlinePart (cleanBase64 u) "image/jpeg";
        InlinePart (cleanBase64 base64) "image/jpeg";
        TextPart (referencePrompt referenceUploadText)].
Proof.
  intros Hu Htruthy Hpayload out. subst out. unfold handleReferenceImageUpload.
  assert (Hbase : truthyStr base64 = true).
  { destruct base64; [discriminate Hpayload | reflexivity]. }
  assert (Hcur : currentRefImageOf st (Some base64) = Some base64).
  { unfold currentRefImageOf. apply orElse_truthy_l. exact Hbase. }
  split; [| split].
  - rewrite handleSendMessage_reference. reflexivity.
  - rewrite handleSendMessage_sent. unfold composedRequests.
    assert (Hguard : isEmptySubmission referenceUploadText (Some base64) = false).
    { unfold isEmptySubmission. cbn [truthy]. rewrite Hbase. apply andb_false_r. }
    rewrite Hguard, Hu, (whenTruthy_Some u _ _ Htruthy), Hcur.
    unfold intentFor. cbn [truthy]. rewrite Hbase.
    rewrite (whenTruthy_Some base64 cleanBase64 None Hbase). reflexivity.
  - unfold eyewearRequest. rewrite Hpayload. reflexivity.
Qed.

Lemma reference_upload_turn_witness :
  let out := handleReferenceImageUpload Sample.working
               (setReferenceImage (Some "data:image/jpeg;base64,OLD") Sample.fresh)
               Sample.glassesPhoto in
  referenceImage (fst out) = Some Sample.glassesPhoto
  /\ snd out = [eyewearRequest (cleanBase64 Sample.basePhoto) referenceUploadText
                  (cleanBase64 Sample.glassesPhoto)]
  /\ parts (eyewearRequest (cleanBase64 Sample.basePhoto) referenceUploadText
              (cleanBase64 Sample.glassesPhoto))
     = [InlinePart (cleanBase64 Sample.basePhoto) "image/jpeg";
        InlinePart (cleanBase64 Sample.glassesPhoto) "image/jpeg";
        TextPart (referencePrompt referenceUploadText)].
Proof.
  apply (reference_upload_turn Sample.working
           (setReferenceImage (Some "data:image/jpeg;base64,OLD") Sample.fresh)
           Sample.glassesPhoto Sample.basePhoto); reflexivity.
Defined.

(** X26. A stored reference image outlives the base photo: after the
    photo is removed and another one uploaded, the next accepted submission
    is an EDIT_IMAGE turn on the new photo with the old reference image,
    whatever its text says. *)
Theorem reference_survives_new_photo (env0 env : Env) (st : App)
    (r base64 text : string) :
  referenceImage st = Some r -> truthyStr r = true ->
  truthyStr base64 = true ->
  isEmptySubmission text None = false ->
  let st1 := handleUserImageUpload env0 (removeUserImage st) base64 in
  referenceImage st1 = Some r
  /\ snd (handleSendMessage env st1 st1 text None)
     = [eyewearRequest (cleanBase64 base64) text (cleanBase64 r)].
Proof.
  intros Hr Hrtruthy Hbase Hguard st1.
  assert (Hr1 : referenceImage st1 = Some r) by exact Hr.
  split; [exact Hr1 |].
  rewrite handleSendMessage_sent. unfold composedRequests. rewrite Hguard.
  change (userImage st1) with (Some base64).
  rewrite (whenTruthy_Some base64 _ _ Hbase), currentRefImageOf_stored, Hr1.
  unfold intentFor. cbn [truthy]. rewrite Hrtruthy.
  rewrite (whenTruthy_Some r cleanBase64 None Hrtruthy). reflexivity.
Qed.

Lemma reference_survives_new_photo_witness :
  let st1 := handleUserImageUpload Sample.working
               (removeUserImage (setReferenceImage (Some Sample.glassesPhoto) Sample.styled))
               "data:image/jpeg;base64,CCCC" in
  referenceImage st1 = Some Sample.glassesPhoto
  /\ snd (handleSendMessage Sample.working st1 st1 "where can I buy these" None)
     = [eyewearRequest (cleanBase64 "data:image/jpeg;base64,CCCC") "where can I buy these"
          (cleanBase64 Sample.glassesPhoto)].
Proof.
  apply (reference_survives_new_photo Sample.working Sample.working
           (setReferenceImage (Some Sample.glassesPhoto) Sample.styled)
           Sample.glassesPhoto "data:image/jpeg;base64,CCCC" "where can I buy these");
    reflexivity.
Defined.
